(** * mslookup: searching embedded spectra against a FAISS index

    A shallow embedding of [src/DLEAMSE/search_vectors_against_index.py].

    The Python module is a thin layer over three libraries: [faiss] (index
    construction, search and persistence), [numpy] (arrays) and [h5py]
    (HDF5 containers).  The functions of the module itself are embedded
    below, each under the name it has in the source:

    - [__init__], [create_index],
      [make_faiss_index],
      [write_faiss_index]              (class [Faiss_write_index])
    - [read_faiss_index],
      [load_embedded_spectra_vector],
      [search_index],
      [write_search_results],
      [execute_faiss_index_search]     (class [Faiss_Index_Search])

    Library calls are modelled where the module fixes their meaning (the
    dataset names handed to [h5py], the [** 0.5] applied to the distance
    array) and are taken as parameters where it does not ([np.load],
    [np.loadtxt], [index.search], [faiss.write_index], [faiss.read_index] and
    the transfers between CPU and GPU).  Calls to [print] write to standard
    output only and are left out.

    The specification also describes the exact nearest-neighbour index that
    the module obtains from [faiss.IndexFlatL2]; module [FlatIndex] models it
    from the specification's text. *)

From Stdlib Require Import ZArith String Ascii Bool Lia.
From Stdlib Require Import Floats.SpecFloat.
From stdpp Require Import gmap strings list fin_maps sorting.

Local Open Scope string_scope.
Local Open Scope Z_scope.

(* ===================================================================== *)
(** * Part I: definitions *)
(* ===================================================================== *)

(** ** Python strings

    A [str] is modelled by its UTF-8 bytes.  On ASCII strings this is
    Python's [str].  On other strings indices count bytes and [lower] leaves
    the bytes of a non-ASCII character alone, so the text of a slice can
    differ from Python's; the tests the loader makes come out the same, since
    the byte of the dot never occurs inside a multi-byte sequence and no
    character outside ASCII lower-cases to one of the characters of the three
    extensions the loader tests for. *)

Module Py.

Definition len (s : string) : Z := Z.of_nat (String.length s).

(** [s.rfind(sub)]: the highest index at which [sub] occurs in [s], or
    [-1].  [rfind_from sub s i last] scans [s], whose first character has
    index [i]; [last] is the highest match seen so far. *)
Fixpoint rfind_from (sub s : string) (i last : Z) : Z :=
  let last' := if String.prefix sub s then i else last in
  match s with
  | EmptyString => last'
  | String _ s' => rfind_from sub s' (i + 1) last'
  end.

Definition rfind (s sub : string) : Z := rfind_from sub s 0 (-1).

Fixpoint drop (n : nat) (s : string) : string :=
  match n, s with
  | O, _ => s
  | S _, EmptyString => EmptyString
  | S n', String _ s' => drop n' s'
  end.

(** [s[i:]]: a negative [i] counts from the end, and both ends are
    clamped to the string. *)
Definition slice_from (s : string) (i : Z) : string :=
  let start := if i <? 0 then Z.max 0 (len s + i) else Z.min i (len s) in
  drop (Z.to_nat start) s.

Definition lower_ascii (c : ascii) : ascii :=
  let n := N_of_ascii c in
  if ((65 <=? n) && (n <=? 90))%N then ascii_of_N (n + 32) else c.

(** [s.lower()] *)
Fixpoint lower (s : string) : string :=
  match s with
  | EmptyString => EmptyString
  | String c s' => String (lower_ascii c) (lower s')
  end.

(** The double-quote character, as a one-character string. *)
Definition dquote : string := String (ascii_of_N 34) EmptyString.

End Py.

(** ** Exceptions and results *)

(** The module raises [ValueError] and the bare [Exception]; exceptions of any
    other class ([KeyError], [OSError], ...) are carried by class name. *)
Inductive exn : Type :=
| ValueError (msg : string)
| PyException (msg : string)
| OtherError (cls msg : string).

Inductive result (A : Type) : Type :=
| Ok (a : A)
| Raise (e : exn).
Arguments Ok {A} a.
Arguments Raise {A} e.

#[global] Instance result_ret : MRet result := fun A a => Ok a.
#[global] Instance result_bind : MBind result := fun A B f m =>
  match m with
  | Ok a => f a
  | Raise e => Raise e
  end.

#[global] Instance result_fmap : FMap result := fun A B f m =>
  match m with
  | Ok a => Ok (f a)
  | Raise e => Raise e
  end.

(** ** numpy arrays *)

(** IEEE-754 binary32, the dtype of every array FAISS consumes or returns. *)
Definition prec32 : Z := 24.
Definition emax32 : Z := 128.
Definition float32 : Type := spec_float.

(** A two-dimensional array is the list of its rows. *)
Abbreviation matrix A := (list (list A)).

Module Np.

(** [a.shape[0]] *)
Definition shape0 {A} (a : matrix A) : Z := Z.of_nat (length a).

(** [np.array(range(n))] *)
Definition arange (n : Z) : list Z := seqZ 0 n.

(** [x ** 0.5] on one float32 element: numpy evaluates a power with the
    scalar exponent 0.5 as the correctly rounded square root. *)
Definition pow_half (x : float32) : float32 := SFsqrt prec32 emax32 x.

(** [a ** 0.5], element by element. *)
Definition pow_half_array (a : matrix float32) : matrix float32 :=
  (fun row : list float32 => pow_half <$> row) <$> a.

(** [a[q][j]] *)
Definition at2 {A} (a : matrix A) (q j : nat) : option A :=
  row ← a !! q; row !! j.

(** The float32 nearest to an integer. *)
Definition of_Z (z : Z) : float32 := binary_normalize prec32 emax32 z 0 false.

End Np.

(** The arrays the module handles. *)
Inductive ndarray : Type :=
| FloatMatrix (rows : matrix float32)
| IntVector (v : list Z)
| IntMatrix (rows : matrix Z).

(** ** Files *)

(** A dataset of an HDF5 container: its data and whether its storage is
    chunked. *)
Record dataset : Type := Dataset { ds_data : ndarray; ds_chunks : bool }.

(** What a path holds: an HDF5 container with its named datasets, or any
    other file, given by its bytes. *)
Inductive file : Type :=
| H5File (datasets : gmap string dataset)
| RawFile (bytes : string).

(** The file store maps a path to the regular file it names.  Failures of the
    operating system other than a missing path (permissions, a full disk)
    are not modelled. *)
Abbreviation filesystem := (gmap string file).

(** [os.path.exists(filepath)] *)
Definition path_exists (fs : filesystem) (filepath : string) : bool :=
  bool_decide (is_Some (fs !! filepath)).

(** Code that writes to the file store: it yields a value or raises, and
    leaves a new store either way. *)
Definition io (A : Type) : Type := filesystem -> result A * filesystem.

#[global] Instance io_ret : MRet io := fun A a fs => (Ok a, fs).
#[global] Instance io_bind : MBind io := fun A B f m fs =>
  match m fs with
  | (Ok a, fs') => f a fs'
  | (Raise e, fs') => (Raise e, fs')
  end.

(** ** Module constants *)

Definition H5_MATRIX_NAME : string := "MATRIX".
Definition DEFAULT_IVF_NLIST : Z := 100.

(** ** Library interfaces *)

(** [faiss.StandardGpuResources()] *)
Inductive gpu_resources : Type := StandardGpuResources.

(** numpy's file readers and its dtype conversion.  The module calls them
    with a path; what they return for a given file is numpy's business. *)
Class NumpyIO : Type := {
  (** [np.load(filepath)] *)
  np_load : filesystem -> string -> result ndarray;
  (** [np.loadtxt(filepath)] *)
  np_loadtxt : filesystem -> string -> result ndarray;
  (** [np.ascontiguousarray(a, dtype=np.float32)] *)
  np_ascontiguousarray_float32 : ndarray -> ndarray
}.

(** An object with a [search] method: [index.search(embedded, k)] returns
    the pair of the squared-L2 distance array and the id array, or raises. *)
Class Searchable (Index : Type) : Type :=
  index_search : Index -> matrix float32 -> Z -> result (matrix float32 * matrix Z).

(** faiss's persistence and device transfer, which the module calls on
    index objects of a type [Index] that is faiss's own. *)
Class Faiss (Index : Type) : Type := {
  (** [faiss.write_index(index, filepath)] *)
  faiss_write_index : Index -> string -> io unit;
  (** [faiss.read_index(filepath)] *)
  faiss_read_index : filesystem -> string -> result Index;
  (** [faiss.index_gpu_to_cpu(index)] *)
  index_gpu_to_cpu : Index -> Index;
  (** [faiss.index_cpu_to_gpu(resources, device, index)] *)
  index_cpu_to_gpu : gpu_resources -> Z -> Index -> Index
}.

(** *** h5py *)

Module H5.

(** [h5py.File(filepath, 'r')] *)
Definition open_r (fs : filesystem) (filepath : string)
  : result (gmap string dataset) :=
  match fs !! filepath with
  | Some (H5File ds) => Ok ds
  | Some (RawFile _) =>
      Raise (OtherError "OSError" "Unable to open file (file signature not found)")
  | None =>
      Raise (OtherError "FileNotFoundError" "Unable to open file (No such file or directory)")
  end.

(** [h5f[name][:]] *)
Definition read_dataset (h5f : gmap string dataset) (name : string)
  : result ndarray :=
  match h5f !! name with
  | Some d => Ok (ds_data d)
  | None => Raise (OtherError "KeyError" "Unable to open object (object does not exist)")
  end.

(** [h5py.File(outpath, 'w')]: create the container, truncating a file
    that is already there. *)
Definition open_w (outpath : string) : io unit := fun fs =>
  (Ok tt, <[outpath := H5File ∅]> fs).

(** [h5f.create_dataset(name, data=data, chunks=chunks)] on the container
    open at [outpath]; h5py refuses a name that is taken. *)
Definition create_dataset (outpath name : string) (data : ndarray)
    (chunks : bool) : io unit := fun fs =>
  match fs !! outpath with
  | Some (H5File ds) =>
      match ds !! name with
      | None =>
          (Ok tt, <[outpath := H5File (<[name := Dataset data chunks]> ds)]> fs)
      | Some _ =>
          (Raise (ValueError "Unable to create dataset (name already exists)"), fs)
      end
  | _ => (Raise (OtherError "OSError" "Not an open HDF5 file"), fs)
  end.

End H5.


(** *** faiss index objects *)

Inductive metric : Type := METRIC_L2.
Inductive gpu_flat_config : Type := GpuIndexFlatConfig.
Inductive gpu_ivf_config : Type := GpuIndexIVFFlatConfig.

(** The index objects the module constructs, by constructor call. *)
Inductive faiss_index : Type :=
| IndexFlatL2 (d : Z)
| IndexIVFFlat (quantizer : faiss_index) (d nlist : Z) (m : metric)
| GpuIndexFlatL2 (res : gpu_resources) (d : Z) (config : gpu_flat_config)
| GpuIndexIVFFlat (res : gpu_resources) (d nlist : Z) (m : metric)
    (config : gpu_ivf_config).

(** The number of clusters an index was constructed with, if it has any. *)
Definition nlist_of (index : faiss_index) : option Z :=
  match index with
  | IndexIVFFlat _ _ nlist _ => Some nlist
  | GpuIndexIVFFlat _ _ nlist _ _ => Some nlist
  | IndexFlatL2 _ | GpuIndexFlatL2 _ _ _ => None
  end.

Definition dimension_of (index : faiss_index) : Z :=
  match index with
  | IndexFlatL2 d | IndexIVFFlat _ d _ _ => d
  | GpuIndexFlatL2 _ d _ | GpuIndexIVFFlat _ d _ _ _ => d
  end.

Inductive index_kind : Type := Flat | IVFFlat.

Definition kind_of (index : faiss_index) : index_kind :=
  match index with
  | IndexFlatL2 _ | GpuIndexFlatL2 _ _ _ => Flat
  | IndexIVFFlat _ _ _ _ | GpuIndexIVFFlat _ _ _ _ _ => IVFFlat
  end.

(** ** class Faiss_write_index *)

(** The instance attributes set by [__init__]. *)
Record Faiss_write_index : Type := {
  tmp : option unit;
  spectra_vectors : matrix float32
}.

(** [make_faiss_index(self, n_dimensions, index_type)]; [num_gpus] is what
    [faiss.get_num_gpus()] returns on the machine. *)
Definition make_faiss_index (self : Faiss_write_index) (num_gpus : Z)
    (n_dimensions : Z) (index_type : string) : result faiss_index :=
  if negb (num_gpus =? 0) then
    let gpu_resources := StandardGpuResources in
    if String.eqb index_type "flat" then
      let config := GpuIndexFlatConfig in
      Ok (GpuIndexFlatL2 gpu_resources n_dimensions config)
    else if String.eqb index_type "ivfflat" then
      let config := GpuIndexIVFFlatConfig in
      Ok (GpuIndexIVFFlat gpu_resources n_dimensions DEFAULT_IVF_NLIST METRIC_L2 config)
    else
      Raise (ValueError ("Unknown index_type " +:+ index_type))
  else
    if String.eqb index_type "flat" then
      Ok (IndexFlatL2 n_dimensions)
    else if String.eqb index_type "ivfflat" then
      let quantizer := IndexFlatL2 n_dimensions in
      Ok (IndexIVFFlat quantizer n_dimensions DEFAULT_IVF_NLIST METRIC_L2)
    else
      Raise (ValueError ("Unknown index_type " +:+ index_type)).

(** [write_faiss_index(self, index, out_filepath)] *)
Definition write_faiss_index {Index} `{Faiss Index} (num_gpus : Z)
    (index : Index) (out_filepath : string) : io unit :=
  let index :=
    if negb (num_gpus =? 0) then index_gpu_to_cpu index else index in
  faiss_write_index index out_filepath.

(** ** class Faiss_Index_Search *)

(** [read_faiss_index(self, index_filepath)] *)
Definition read_faiss_index {Index} `{Faiss Index} (num_gpus : Z)
    (fs : filesystem) (index_filepath : string) : result Index :=
  index ← faiss_read_index fs index_filepath;
  let index :=
    if negb (num_gpus =? 0)
    then index_cpu_to_gpu StandardGpuResources 0 index
    else index in
  Ok index.

(** The loader's local [extension_lower]:
    [filepath[filepath.rfind("."):].lower()]. *)
Definition extension_lower (filepath : string) : string :=
  Py.lower (Py.slice_from filepath (Py.rfind filepath ".")).

(** [load_embedded_spectra_vector(self, filepath)] *)
Definition load_embedded_spectra_vector `{NumpyIO} (fs : filesystem)
    (filepath : string) : result ndarray :=
  if path_exists fs filepath then
    let extension_lower := extension_lower filepath in
    if String.eqb extension_lower ".h5" then
      (* try / except Exception as e: raise e / finally: close *)
      match (h5f ← H5.open_r fs filepath; H5.read_dataset h5f H5_MATRIX_NAME) with
      | Ok result => Ok result
      | Raise e => Raise e
      end
    else if String.eqb extension_lower ".npy" then
      np_load fs filepath
    else if String.eqb extension_lower ".txt" then
      vectors ← np_loadtxt fs filepath;
      let vectors := np_ascontiguousarray_float32 vectors in
      Ok vectors
    else
      Raise (ValueError ("read_array_file: Unknown extension " +:+ extension_lower
                         +:+ " for file " +:+ filepath))
  else
    Raise (PyException ("File " +:+ Py.dquote +:+ filepath +:+ Py.dquote
                        +:+ " does not exists")).

(** [search_index(self, index, embedded, k)] *)
Definition search_index {Index} `{Searchable Index} (index : Index)
    (embedded : matrix float32) (k : Z) : result (matrix float32 * matrix Z) :=
  match index_search index embedded k with
  | Ok (D, I_) =>
      (* search() returns squared L2 norm, so square root the results *)
      let D := Np.pow_half_array D in
      Ok (D, I_)
  | Raise e => Raise e
  end.

(** [write_search_results(self, D, I, outpath)] *)
Definition write_search_results (D : matrix float32) (I : matrix Z)
    (outpath : string) : io unit :=
  (* with h5py.File(outpath, 'w') as h5f: *)
  H5.open_w outpath;;
  H5.create_dataset outpath "spectrum_ids" (IntVector (Np.arange (Np.shape0 D))) true;;
  H5.create_dataset outpath "D" (FloatMatrix D) true;;
  H5.create_dataset outpath "I" (IntMatrix I) true.

(** ** The exact index of the specification *)

Module FlatIndex.

(** The arithmetic and the order the index needs from its scalars. *)
Class Scalar (F : Type) : Type := {
  zero : F;
  add : F -> F -> F;
  sub : F -> F -> F;
  mul : F -> F -> F;
  leb : F -> F -> bool
}.

(** The order is total and transitive on the scalars that are [comparable]:
    all of them for the integers, all but NaN for the floats. *)
Class ScalarOrder (F : Type) `{Scalar F} (comparable : F -> Prop) : Prop := {
  leb_total : forall x y : F,
    comparable x -> comparable y -> leb x y = true \/ leb y x = true;
  leb_trans : forall x y z : F,
    comparable x -> comparable y -> comparable z ->
    leb x y = true -> leb y z = true -> leb x z = true
}.

#[global] Instance Z_scalar : Scalar Z :=
  {| zero := 0; add := Z.add; sub := Z.sub; mul := Z.mul; leb := Z.leb |}.

#[global] Instance float32_scalar : Scalar float32 :=
  {| zero := S754_zero false;
     add := SFadd prec32 emax32;
     sub := SFsub prec32 emax32;
     mul := SFmul prec32 emax32;
     leb := SFleb |}.

(** A float32 that is a number. *)
Definition not_nan (x : float32) : Prop :=
  match x with S754_nan => False | _ => True end.

(** The place of a float32 on the number line, as a triple compared left to
    right: its class and sign, then exponent, then mantissa. *)
Definition float_key (x : float32) : Z * Z * Z :=
  match x with
  | S754_infinity true => (-2, 0, 0)
  | S754_finite true m e => (-1, - e, - Z.pos m)
  | S754_zero _ => (0, 0, 0)
  | S754_finite false m e => (1, e, Z.pos m)
  | S754_infinity false => (2, 0, 0)
  | S754_nan => (3, 0, 0)
  end.

Definition key_le (a b : Z * Z * Z) : Prop :=
  a.1.1 < b.1.1 \/
  (a.1.1 = b.1.1 /\ (a.1.2 < b.1.2 \/ (a.1.2 = b.1.2 /\ a.2 <= b.2))).

Section Model.
Context {F : Type} `{Scalar F}.

(** Modelled from the spec: the squared-L2 distance of section 4.5, the
    sum of the squared coordinate differences of two vectors of equal
    length. *)
Definition squared_l2 (a b : list F) : F :=
  foldl (fun acc p => add acc (mul (sub p.1 p.2) (sub p.1 p.2))) zero (zip a b).

(** Modelled from the spec: the FlatIndex of section 3, which owns the
    corpus and has a fixed dimension; a vector's id is its zero-based
    insertion position. *)
Record t : Type := Build { dimension : nat; corpus : list (list F) }.

(** Modelled from the spec: one entry of a ResultSet row (section 3), a
    (distance, corpus-id) pair or the no-result sentinel. *)
Inductive slot : Type :=
| Neighbor (distance : F) (id : nat)
| NoResult.

(** Modelled from the spec: the exhaustive comparison of section 4.1, the
    distance from [query] to every corpus vector, each paired with its
    id; [i] is the id of the first vector of [vectors]. *)
Fixpoint candidates_from (i : nat) (query : list F) (vectors : list (list F))
  : list (F * nat) :=
  match vectors with
  | [] => []
  | v :: vs => (squared_l2 query v, i) :: candidates_from (S i) query vs
  end.

(** Modelled from the spec: the comparison of the selection;
    [closer x c] holds when [x] is strictly nearer than [c]. *)
Definition closer (x c : F * nat) : bool := negb (leb c.1 x.1).

(** Modelled from the spec: one round of the partial sort of section 4.1,
    the nearest of [c :: rest] and the others in their original order.  The
    nearest of [rest] replaces [c] only when strictly nearer, so among
    equals the one with the lowest id wins (section 4.5: the selection is
    stable under ties). *)
Fixpoint select_min (c : F * nat) (rest : list (F * nat))
  : (F * nat) * list (F * nat) :=
  match rest with
  | [] => (c, [])
  | x :: xs =>
      let '(m, r) := select_min x xs in
      if closer m c then (m, c :: r) else (c, rest)
  end.

(** Modelled from the spec: the partial top-k selection of sections 4.1
    and 4.5 ([k] rounds rather than a full sort, ties broken by ascending
    id), with the slots that find no neighbour marked no-result
    (section 3). *)
Fixpoint top_k (k : nat) (cands : list (F * nat)) : list slot :=
  match k with
  | O => []
  | S k' =>
      match cands with
      | [] => NoResult :: top_k k' []
      | c :: rest =>
          let '(m, remaining) := select_min c rest in
          Neighbor m.1 m.2 :: top_k k' remaining
      end
  end.

(** Modelled from the spec: the search of section 4.1 for one query
    vector. *)
Definition search_one (ix : t) (k : nat) (query : list F) : list slot :=
  top_k k (candidates_from 0 query (corpus ix)).

(** Modelled from the spec: [FlatIndex.search] of section 4.1, which faiss
    provides and the module only calls.  It fails with DimensionMismatch
    when a query's length is not the index's dimension (section 4.3) and
    otherwise returns one row of [k] slots per query. *)
Definition search (ix : t) (queries : list (list F)) (k : nat)
  : result (list (list slot)) :=
  if forallb (fun q => Nat.eqb (length q) (dimension ix)) queries
  then Ok (search_one ix k <$> queries)
  else Raise (OtherError "DimensionMismatch" "search").

(** The number of neighbours found in a row, and of no-result slots. *)
Definition is_neighbor (s : slot) : bool :=
  match s with Neighbor _ _ => true | NoResult => false end.
Definition valid_count (row : list slot) : nat :=
  length (filter (fun s => is_neighbor s = true) row).
Definition no_result_count (row : list slot) : nat :=
  length (filter (fun s => is_neighbor s = false) row).




End Model.

Arguments t F : clear implicits.
Arguments slot F : clear implicits.

(** *** The index behind the module's [search_index]

    The arrays [index.search] hands back: distances and ids side by side,
    a no-result slot holding the two sentinel values. *)
Section Arrays.
Variable no_result_distance : float32.
Variable no_result_id : Z.

(** Modelled from the spec: the distance and the id a ResultSet slot holds
    (section 3), the sentinel values standing for no result. *)
Definition slot_distance (s : slot float32) : float32 :=
  match s with Neighbor d _ => d | NoResult => no_result_distance end.

Definition slot_id (s : slot float32) : Z :=
  match s with Neighbor _ i => Z.of_nat i | NoResult => no_result_id end.

(** Modelled from the spec: the index-kind search the IndexSearcher of
    section 4.3 dispatches to, for the flat kind.  The spec gives no
    behaviour for a negative [k]; it is read as zero. *)
Definition searchable : Searchable (t float32) :=
  fun ix embedded k =>
    match search ix embedded (Z.to_nat k) with
    | Ok rows =>
        Ok ((fun row : list (slot float32) => slot_distance <$> row) <$> rows,
            (fun row : list (slot float32) => slot_id <$> row) <$> rows)
    | Raise e => Raise e
    end.

(** The ids of a row that name a corpus vector. *)
Definition valid_ids (n : nat) (row : list Z) : list Z :=
  filter (fun i => 0 <= i < Z.of_nat n) row.

End Arrays.

End FlatIndex.

(** ** Notions used in the statements *)

(** [filepath] ends with [ext] up to the case of its letters. *)
Definition ends_with_ci (filepath ext : string) : Prop :=
  exists stem suffix : string,
    filepath = stem +:+ suffix /\ Py.lower suffix = ext.

Fixpoint no_dot (s : string) : bool :=
  match s with
  | EmptyString => true
  | String c s' => negb (Ascii.eqb c ".") && no_dot s'
  end.






(** The number of vectors of the corpus a [Faiss_write_index] holds. *)
Definition corpus_size (self : Faiss_write_index) : Z :=
  Np.shape0 (spectra_vectors self).

(** The cluster count of a partitioned index is a fixed positive multiple
    [num / den] of the corpus size. *)
Definition nlist_proportional : Prop :=
  exists num den : Z,
    0 < num /\ 0 < den /\
    forall (self : Faiss_write_index) (num_gpus n_dimensions : Z)
           (index : faiss_index),
      make_faiss_index self num_gpus n_dimensions "ivfflat" = Ok index ->
      exists nlist : Z,
        nlist_of index = Some nlist /\ nlist * den = num * corpus_size self.

(** What the loader returns for an HDF5 container: the dataset named
    [H5_MATRIX_NAME], or the failure to find it. *)
Definition h5_matrix_of (f : file) : result ndarray :=
  match f with
  | H5File ds =>
      match ds !! H5_MATRIX_NAME with
      | Some d => Ok (ds_data d)
      | None => Raise (OtherError "KeyError" "Unable to open object (object does not exist)")
      end
  | RawFile _ =>
      Raise (OtherError "OSError" "Unable to open file (file signature not found)")
  end.

(** The messages of the loader's two exceptions. *)
Definition file_not_found_message (filepath : string) : string :=
  "File " +:+ Py.dquote +:+ filepath +:+ Py.dquote +:+ " does not exists".

Definition unknown_extension_message (filepath : string) : string :=
  "read_array_file: Unknown extension " +:+ extension_lower filepath
  +:+ " for file " +:+ filepath.

(** ** Data of the worked examples *)

(** The corpus and the query of the specification's example (section 8). *)
Definition example_corpus : list (list Z) := [[0; 0]; [1; 0]; [0; 1]; [5; 5]].
Definition example_query : list Z := [0; 0].

(** The same corpus in float32, and a corpus of one vector. *)
Definition example_corpus32 : list (list float32) :=
  (fun v : list Z => Np.of_Z <$> v) <$> example_corpus.
Definition example_query32 : list float32 := Np.of_Z <$> example_query.
Definition single_vector : list float32 := [Np.of_Z 3; Np.of_Z 4].

(** Sentinel values for the examples: the id -1 and the largest finite
    float32. *)
Definition example_no_result_id : Z := -1.
Definition example_no_result_distance : float32 := SFmax_float prec32 emax32.

(** Readers for the examples: a raw file holds the one-row array [[2]]. *)
Definition example_numpy : NumpyIO := {|
  np_load := fun fs filepath =>
    match fs !! filepath with
    | Some (RawFile _) => Ok (FloatMatrix [[Np.of_Z 2]])
    | _ => Raise (OtherError "OSError" "cannot read")
    end;
  np_loadtxt := fun fs filepath =>
    match fs !! filepath with
    | Some (RawFile _) => Ok (FloatMatrix [[Np.of_Z 2]])
    | _ => Raise (OtherError "OSError" "cannot read")
    end;
  np_ascontiguousarray_float32 := fun a => a
|}.

(** A store with an HDF5 container, two raw files and nothing else. *)
Definition example_fs : filesystem :=
  <["run/SPECTRA.H5" :=
      H5File {[ "MATRIX" := Dataset (FloatMatrix [[Np.of_Z 1]]) false ]}]>
  (<["vectors.npy" := RawFile "npy"]>
  (<["notes.doc" := RawFile "doc"]> ∅)).

(** ** The rest of the module

    The constructor of [Faiss_write_index] with its [create_index], and the
    pipeline [execute_faiss_index_search].  [commanline_args] is a list of
    [argparse] declarations and is not embedded; its result reaches the
    pipeline as the record [Args.t]. *)

(** *** Further library interfaces *)

(** Index objects: what a constructor call creates, and [index.add(x)],
    which gives the index with the vectors added or raises. *)
Class FaissBuild (Index : Type) : Type := {
  faiss_construct : faiss_index -> Index;
  faiss_add : Index -> matrix float32 -> result Index
}.

(** numpy's array operations of the pipeline. *)
Class NumpyArrays : Type := {
  (** [np.vstack(arrays)] *)
  np_vstack : list ndarray -> result ndarray;
  (** [a.astype('float32')], as the two-dimensional float32 array that
      [index.search] takes *)
  np_astype_float32 : ndarray -> result (matrix float32)
}.

(** A step that may raise and leaves the store alone, and one that also
    reads the store. *)
Definition io_lift {A} (r : result A) : io A := fun fs => (r, fs).
Definition io_read {A} (f : filesystem -> result A) : io A := fun fs => (f fs, fs).

(** A two-dimensional float32 array as the constructor receives it: its
    rows and its [shape[1]].  The column count is kept beside the rows
    because an array without rows has one too (shape [(0, 5)]); in an array
    with rows it is the length of each row. *)
Record array2d : Type := Array2d {
  array_rows : matrix float32;
  array_shape1 : Z
}.

Definition array_well_formed (a : array2d) : Prop :=
  Forall (fun row => Z.of_nat (length row) = array_shape1 a) (array_rows a).

(** [a.shape[1]] *)
Definition np_shape1 (a : array2d) : Z := array_shape1 a.

(** *** class Faiss_write_index, continued *)

(** [create_index(self, spectra_vectors, output_path)]; the parameter is
    [spectra_vectors_arg] here, to tell it from the attribute.  The index
    type is left to its default, ['flat']; the corpus is float32 already, so
    its [astype('float32')] is the corpus. *)
Definition create_index {Index} `{Faiss Index} `{FaissBuild Index}
    (self : Faiss_write_index) (num_gpus : Z)
    (spectra_vectors_arg : array2d) (output_path : string) : io unit :=
  let n_embedded_dim := np_shape1 spectra_vectors_arg in
  index ← io_lift (make_faiss_index self num_gpus n_embedded_dim "flat");
  index ← io_lift (faiss_add (faiss_construct index) (spectra_vectors self));
  write_faiss_index num_gpus index output_path.

(** [__init__(self, vectors_data, output_path)]; the attribute
    [spectra_vectors] holds the rows of [vectors_data]. *)
Definition Faiss_write_index__init__ {Index} `{Faiss Index} `{FaissBuild Index}
    (num_gpus : Z) (vectors_data : array2d) (output_path : string)
    : io Faiss_write_index :=
  let self := {| tmp := None; spectra_vectors := array_rows vectors_data |} in
  create_index self num_gpus vectors_data output_path;;
  mret self.

(** *** class Faiss_Index_Search, continued *)

(** The parsed command line: the names of the three files and [k]. *)
Module Args.
Record t : Type := {
  index_file : string;
  input_embedded_spectra : string;
  k : Z;
  output : string
}.
End Args.

(** [execute_faiss_index_search(self, args)].  The handle [args.output] is
    never written through, so closing it leaves the file as h5py wrote it. *)
Definition execute_faiss_index_search {Index} `{Faiss Index}
    `{Searchable Index} `{NumpyIO} `{NumpyArrays}
    (num_gpus : Z) (args : Args.t) : io unit :=
  index ← io_read (fun fs => read_faiss_index num_gpus fs (Args.index_file args));
  let embedded_arrays : list ndarray := [] in
  run_spectra ← io_read (fun fs =>
    load_embedded_spectra_vector fs (Args.input_embedded_spectra args));
  let embedded_arrays := (embedded_arrays ++ [run_spectra])%list in
  embedded_spectra ← io_lift (np_vstack embedded_arrays);
  embedded ← io_lift (np_astype_float32 embedded_spectra);
  found ← io_lift (search_index index embedded (Args.k args));
  write_search_results found.1 found.2 (Args.output args).

(** *** Notions used in the further statements *)

(** A path of ASCII characters only, on which the byte model of [str] is
    Python's. *)
Fixpoint is_ascii (s : string) : bool :=
  match s with
  | EmptyString => true
  | String c s' => (N_of_ascii c <? 128)%N && is_ascii s'
  end.

(** Whether an index object lives on the GPU. *)
Definition is_gpu_index (index : faiss_index) : bool :=
  match index with
  | GpuIndexFlatL2 _ _ _ | GpuIndexIVFFlat _ _ _ _ _ => true
  | IndexFlatL2 _ | IndexIVFFlat _ _ _ _ => false
  end.

(** The container [write_search_results] leaves for [D] and [I]. *)
Definition result_container (D : matrix float32) (I : matrix Z)
  : gmap string dataset :=
  <["I" := Dataset (IntMatrix I) true]>
  (<["D" := Dataset (FloatMatrix D) true]>
  (<["spectrum_ids" := Dataset (IntVector (Np.arange (Np.shape0 D))) true]> ∅)).

(** The stages before the write, which only read the store: the index is
    read first, then the vectors are loaded, stacked, converted and
    searched. *)
Definition stages {Index} `{Faiss Index} `{Searchable Index} `{NumpyIO}
    `{NumpyArrays} (num_gpus : Z) (args : Args.t) (fs : filesystem)
  : result (matrix float32 * matrix Z) :=
  index ← read_faiss_index num_gpus fs (Args.index_file args);
  run_spectra ← load_embedded_spectra_vector fs (Args.input_embedded_spectra args);
  embedded_spectra ← np_vstack [run_spectra];
  embedded ← np_astype_float32 embedded_spectra;
  search_index index embedded (Args.k args).

(** *** Data of the further examples *)

(** A toy faiss: its indexes are exact indexes, one of which it can store. *)
Definition example_index : FlatIndex.t float32 := FlatIndex.Build 2 example_corpus32.

Definition example_faiss : Faiss (FlatIndex.t float32) := {|
  faiss_write_index := fun index filepath fs =>
    (Ok tt, <[filepath := RawFile "faiss index"]> fs);
  faiss_read_index := fun fs filepath =>
    match fs !! filepath with
    | Some (RawFile bytes) =>
        if String.eqb bytes "faiss index" then Ok example_index
        else Raise (OtherError "RuntimeError" "not an index")
    | _ => Raise (OtherError "RuntimeError" "could not open")
    end;
  index_gpu_to_cpu := fun index => index;
  index_cpu_to_gpu := fun _ _ index => index
|}.

Definition example_build : FaissBuild (FlatIndex.t float32) := {|
  faiss_construct := fun index => FlatIndex.Build (Z.to_nat (dimension_of index)) [];
  faiss_add := fun index vectors =>
    if forallb (fun v => Nat.eqb (length v) (FlatIndex.dimension index)) vectors
    then Ok (FlatIndex.Build (FlatIndex.dimension index)
               (FlatIndex.corpus index ++ vectors)%list)
    else Raise (OtherError "AssertionError" "dimension")
|}.

Definition example_arrays : NumpyArrays := {|
  np_vstack := fun arrays =>
    match arrays with
    | [a] => Ok a
    | _ => Raise (ValueError "need exactly one array")
    end;
  np_astype_float32 := fun a =>
    match a with
    | FloatMatrix rows => Ok rows
    | _ => Raise (OtherError "TypeError" "not a float matrix")
    end
|}.

(** A store with an index file and a container of two query vectors. *)
Definition pipeline_fs : filesystem :=
  <["index.faiss" := RawFile "faiss index"]>
  (<["queries.h5" :=
       H5File {[ "MATRIX" :=
                   Dataset (FloatMatrix [example_query32; single_vector]) false ]}]> ∅).

Definition pipeline_args : Args.t := {|
  Args.index_file := "index.faiss";
  Args.input_embedded_spectra := "queries.h5";
  Args.k := 2;
  Args.output := "results.h5"
|}.

(* ===================================================================== *)
(** * Part II: properties *)
(* ===================================================================== *)

(** ** Strings: the extension computed by the loader *)

Section Strings.

Lemma lower_ascii_dot (c : ascii) :
  Py.lower_ascii c = "."%char <-> c = "."%char.
Proof.
  split.
  - destruct c as [[] [] [] [] [] [] [] []]; vm_compute; intros E;
      first [ reflexivity | discriminate E ].
  - intros ->. reflexivity.
Qed.

Lemma eqb_dot_lower (c : ascii) :
  Ascii.eqb (Py.lower_ascii c) "." = Ascii.eqb c ".".
Proof.
  destruct (Ascii.eqb_spec c ".") as [-> | Hne]; [reflexivity |].
  destruct (Ascii.eqb_spec (Py.lower_ascii c) ".") as [E | _]; [| reflexivity].
  exfalso. apply Hne. apply (proj1 (lower_ascii_dot c)), E.
Qed.

Lemma no_dot_lower (s : string) : no_dot (Py.lower s) = no_dot s.
Proof.
  induction s as [| c s IH]; simpl; [reflexivity |].
  rewrite eqb_dot_lower, IH. reflexivity.
Qed.

Lemma no_dot_drop (n : nat) (s : string) :
  no_dot s = true -> no_dot (Py.drop n s) = true.
Proof.
  revert s. induction n as [| n IH]; intros s Hs; simpl; [exact Hs |].
  destruct s as [| c s]; [reflexivity |].
  simpl in Hs. apply andb_prop in Hs as [_ Hs]. apply IH, Hs.
Qed.

Lemma prefix_dot (c : ascii) (s : string) :
  String.prefix "." (String c s) = Ascii.eqb c ".".
Proof.
  cbn [String.prefix]. destruct (ascii_dec "." c) as [<- | Hne].
  - destruct s; reflexivity.
  - symmetry. apply Ascii.eqb_neq. congruence.
Qed.

Lemma rfind_from_cons (sub : string) (c : ascii) (s : string) (i last : Z) :
  Py.rfind_from sub (String c s) i last =
  Py.rfind_from sub s (i + 1) (if String.prefix sub (String c s) then i else last).
Proof. reflexivity. Qed.

Lemma rfind_from_no_dot (s : string) (i last : Z) :
  no_dot s = true -> Py.rfind_from "." s i last = last.
Proof.
  revert i last. induction s as [| c s IH]; intros i last Hs.
  - reflexivity.
  - simpl in Hs. apply andb_prop in Hs as [Hc Hs].
    rewrite rfind_from_cons, prefix_dot.
    apply negb_true_iff in Hc. rewrite Hc. apply IH, Hs.
Qed.

Lemma rfind_from_last_dot (a b : string) (i last : Z) :
  no_dot b = true ->
  Py.rfind_from "." (a +:+ "." +:+ b) i last = i + Py.len a.
Proof.
  intros Hb. revert i last. induction a as [| c a IH]; intros i last.
  - change ("" +:+ "." +:+ b) with (String "." b).
    rewrite rfind_from_cons, prefix_dot. change (Ascii.eqb "." ".") with true.
    rewrite rfind_from_no_dot by exact Hb. unfold Py.len. simpl. lia.
  - change (String c a +:+ "." +:+ b) with (String c (a +:+ "." +:+ b)).
    rewrite rfind_from_cons, IH.
    unfold Py.len. cbn [String.length]. lia.
Qed.

Lemma split_last_dot (s : string) :
  no_dot s = false ->
  exists a b : string, s = a +:+ "." +:+ b /\ no_dot b = true.
Proof.
  induction s as [| c s IH]; intros Hs; [discriminate Hs |].
  destruct (no_dot s) eqn:Hrest.
  - simpl in Hs. rewrite Hrest, andb_true_r in Hs.
    apply negb_false_iff, Ascii.eqb_eq in Hs. subst c.
    exists EmptyString, s. split; [reflexivity | exact Hrest].
  - destruct (IH eq_refl) as (a & b & -> & Hb).
    exists (String c a), b. split; [reflexivity | exact Hb].
Qed.

Lemma drop_app (a b : string) : Py.drop (String.length a) (a +:+ b) = b.
Proof. induction a as [| c a IH]; simpl; [destruct b; reflexivity | exact IH]. Qed.

Lemma length_app (a b : string) :
  String.length (a +:+ b) = (String.length a + String.length b)%nat.
Proof. induction a as [| c a IH]; simpl; [reflexivity | now rewrite IH]. Qed.

Lemma slice_from_app (a b : string) :
  Py.slice_from (a +:+ b) (Py.len a) = b.
Proof.
  unfold Py.slice_from, Py.len. rewrite length_app.
  destruct (Z.ltb_spec (Z.of_nat (String.length a)) 0) as [Hneg | _]; [lia |].
  rewrite Z.min_l by lia. rewrite Nat2Z.id. apply drop_app.
Qed.

(** With a dot in the path, the extension is what follows the last dot. *)
Lemma extension_lower_dotted (a b : string) :
  no_dot b = true ->
  extension_lower (a +:+ "." +:+ b) = "." +:+ Py.lower b.
Proof.
  intros Hb. unfold extension_lower, Py.rfind.
  rewrite rfind_from_last_dot by exact Hb. rewrite Z.add_0_l.
  rewrite slice_from_app. reflexivity.
Qed.

(** Without one, [rfind] answers [-1] and the slice is the last character
    of the path: no dot in it either. *)
Lemma extension_lower_no_dot (s : string) :
  no_dot s = true -> no_dot (extension_lower s) = true.
Proof.
  intros Hs. unfold extension_lower, Py.rfind.
  rewrite rfind_from_no_dot by exact Hs.
  rewrite no_dot_lower. unfold Py.slice_from. apply no_dot_drop, Hs.
Qed.

(** The loader's extension test is a test on how the path ends. *)
Lemma extension_lower_iff (filepath r : string) :
  no_dot r = true ->
  extension_lower filepath = "." +:+ r <-> ends_with_ci filepath ("." +:+ r).
Proof.
  intros Hr. split.
  - intros Hext. destruct (no_dot filepath) eqn:Hdot.
    + apply extension_lower_no_dot in Hdot. rewrite Hext in Hdot.
      discriminate Hdot.
    + destruct (split_last_dot _ Hdot) as (a & b & -> & Hb).
      rewrite extension_lower_dotted in Hext by exact Hb.
      exists a, ("." +:+ b). split; [reflexivity | exact Hext].
  - intros (stem & suffix & -> & Hlow).
    destruct suffix as [| c b]; [discriminate Hlow |].
    simpl in Hlow. injection Hlow as Hc Hb.
    apply (proj1 (lower_ascii_dot c)) in Hc. subst c.
    assert (no_dot b = true) as Hnb by (rewrite <- no_dot_lower, Hb; exact Hr).
    change (String "." b) with ("." +:+ b).
    rewrite extension_lower_dotted by exact Hnb. now rewrite Hb.
Qed.

End Strings.

(** ** The vector loader *)

Section VectorLoader.
Context `{NumpyIO}.

Lemma path_exists_true (fs : filesystem) (filepath : string) :
  path_exists fs filepath = true <-> is_Some (fs !! filepath).
Proof. unfold path_exists. apply bool_decide_eq_true. Qed.

Lemma path_exists_false (fs : filesystem) (filepath : string) :
  path_exists fs filepath = false <-> fs !! filepath = None.
Proof.
  unfold path_exists. rewrite bool_decide_eq_false.
  rewrite <- eq_None_not_Some. reflexivity.
Qed.

(** A path that is not in the store: the loader stops at its first test. *)
Lemma load_missing (fs : filesystem) (filepath : string) :
  path_exists fs filepath = false ->
  load_embedded_spectra_vector fs filepath
  = Raise (PyException (file_not_found_message filepath)).
Proof.
  intros Hmiss. unfold load_embedded_spectra_vector. rewrite Hmiss.
  reflexivity.
Qed.

Lemma h5_branch (fs : filesystem) (filepath : string) (f : file) :
  fs !! filepath = Some f ->
  (h5f ← H5.open_r fs filepath; H5.read_dataset h5f H5_MATRIX_NAME)
  = h5_matrix_of f.
Proof.
  intros Hf. unfold H5.open_r. rewrite Hf.
  destruct f as [ds | bytes]; reflexivity.
Qed.

(** A path that is in the store: the loader dispatches on the extension. *)
Lemma load_present (fs : filesystem) (filepath : string) (f : file) :
  fs !! filepath = Some f ->
  load_embedded_spectra_vector fs filepath =
    if String.eqb (extension_lower filepath) ".h5" then h5_matrix_of f
    else if String.eqb (extension_lower filepath) ".npy" then np_load fs filepath
    else if String.eqb (extension_lower filepath) ".txt"
         then np_ascontiguousarray_float32 <$> np_loadtxt fs filepath
    else Raise (ValueError (unknown_extension_message filepath)).
Proof.
  intros Hf. unfold load_embedded_spectra_vector.
  assert (path_exists fs filepath = true) as ->
    by (apply path_exists_true; rewrite Hf; eauto).
  cbv zeta. rewrite (h5_branch _ _ _ Hf).
  destruct (String.eqb _ ".h5"); [destruct (h5_matrix_of f); reflexivity |].
  destruct (String.eqb _ ".npy"); [reflexivity |].
  destruct (String.eqb _ ".txt"); [| reflexivity].
  destruct (np_loadtxt fs filepath); reflexivity.
Qed.

(** The three extension tests, as properties of the path. *)
Lemma ext_h5 (filepath : string) :
  String.eqb (extension_lower filepath) ".h5" = true <-> ends_with_ci filepath ".h5".
Proof. rewrite String.eqb_eq. apply (extension_lower_iff filepath "h5"). reflexivity. Qed.

Lemma ext_npy (filepath : string) :
  String.eqb (extension_lower filepath) ".npy" = true <-> ends_with_ci filepath ".npy".
Proof. rewrite String.eqb_eq. apply (extension_lower_iff filepath "npy"). reflexivity. Qed.

Lemma ext_txt (filepath : string) :
  String.eqb (extension_lower filepath) ".txt" = true <-> ends_with_ci filepath ".txt".
Proof. rewrite String.eqb_eq. apply (extension_lower_iff filepath "txt"). reflexivity. Qed.

(** C3. The loader reads exactly three formats, chosen by how the path
    ends (letter case apart): [.h5] gives the dataset [MATRIX] of the HDF5
    container, [.npy] what [np.load] reads, [.txt] what [np.loadtxt] reads,
    converted to float32.  A path in the store with any other ending
    raises the unknown-extension [ValueError]; a path not in the store
    raises the file-not-found exception. *)
Theorem loader_three_formats (fs : filesystem) (filepath : string) :
  match fs !! filepath with
  | None =>
      load_embedded_spectra_vector fs filepath
      = Raise (PyException (file_not_found_message filepath))
  | Some f =>
      (ends_with_ci filepath ".h5" ->
         load_embedded_spectra_vector fs filepath = h5_matrix_of f) /\
      (ends_with_ci filepath ".npy" ->
         load_embedded_spectra_vector fs filepath = np_load fs filepath) /\
      (ends_with_ci filepath ".txt" ->
         load_embedded_spectra_vector fs filepath
         = np_ascontiguousarray_float32 <$> np_loadtxt fs filepath) /\
      (~ ends_with_ci filepath ".h5" -> ~ ends_with_ci filepath ".npy" ->
       ~ ends_with_ci filepath ".txt" ->
         load_embedded_spectra_vector fs filepath
         = Raise (ValueError (unknown_extension_message filepath)))
  end.
Proof.
  destruct (fs !! filepath) as [f |] eqn:Hf.
  - rewrite (load_present _ _ _ Hf). repeat split.
    + intros He. apply ext_h5 in He as ->. reflexivity.
    + intros He. apply ext_npy in He as Hb. rewrite Hb.
      apply String.eqb_eq in Hb as ->. reflexivity.
    + intros He. apply ext_txt in He as Hb. rewrite Hb.
      apply String.eqb_eq in Hb as ->. reflexivity.
    + intros N5 Nn Nt.
      rewrite <- ext_h5 in N5. rewrite <- ext_npy in Nn. rewrite <- ext_txt in Nt.
      apply not_true_is_false in N5, Nn, Nt. rewrite N5, Nn, Nt. reflexivity.
  - apply load_missing, path_exists_false, Hf.
Qed.

(** C10. The existence test comes first: a path that does not exist raises
    the file-not-found exception whatever its extension, and a
    [ValueError], the unknown-extension error among them, is raised only
    for a path that exists. *)
Theorem loader_existence_first (fs : filesystem) (filepath : string) :
  (path_exists fs filepath = false ->
     load_embedded_spectra_vector fs filepath
     = Raise (PyException (file_not_found_message filepath))) /\
  (forall msg : string,
     load_embedded_spectra_vector fs filepath = Raise (ValueError msg) ->
     path_exists fs filepath = true).
Proof.
  split; [apply load_missing |].
  intros msg Hraise. destruct (path_exists fs filepath) eqn:Hex; [reflexivity |].
  rewrite (load_missing _ _ Hex) in Hraise. discriminate Hraise.
Qed.

End VectorLoader.

(** ** The search wrapper *)

Section Wrapper.
Context {Index : Type} `{Searchable Index}.

Lemma at2_pow_half_array (D : matrix float32) (q j : nat) :
  Np.at2 (Np.pow_half_array D) q j = SFsqrt prec32 emax32 <$> Np.at2 D q j.
Proof.
  unfold Np.at2, Np.pow_half_array. rewrite list_lookup_fmap.
  destruct (D !! q) as [row |]; simpl; [| reflexivity].
  rewrite list_lookup_fmap. reflexivity.
Qed.

Lemma length_pow_half_array (D : matrix float32) :
  length (Np.pow_half_array D) = length D.
Proof. apply length_fmap. Qed.

(** What the wrapper does with either outcome of [index.search]. *)
Lemma search_index_ok (index : Index) (embedded : matrix float32) (k : Z)
    (D : matrix float32) (I_ : matrix Z) :
  index_search index embedded k = Ok (D, I_) ->
  search_index index embedded k = Ok (Np.pow_half_array D, I_).
Proof. intros Hs. unfold search_index. rewrite Hs. reflexivity. Qed.

Lemma search_index_raise (index : Index) (embedded : matrix float32) (k : Z)
    (e : exn) :
  index_search index embedded k = Raise e ->
  search_index index embedded k = Raise e.
Proof. intros Hs. unfold search_index. rewrite Hs. reflexivity. Qed.

(** C1. Whatever the index, when its search returns the squared distances
    [D], [search_index] returns a distance array of the same shape whose
    every element is the float32 square root, taken once, of the element of
    [D] at the same position. *)
Theorem search_index_square_roots (index : Index) (embedded : matrix float32)
    (k : Z) (D : matrix float32) (I_ : matrix Z) :
  index_search index embedded k = Ok (D, I_) ->
  exists D' : matrix float32,
    search_index index embedded k = Ok (D', I_) /\
    length D' = length D /\
    forall q j : nat,
      Np.at2 D' q j = SFsqrt prec32 emax32 <$> Np.at2 D q j.
Proof.
  intros Hs. exists (Np.pow_half_array D). split; [| split].
  - apply search_index_ok, Hs.
  - apply length_pow_half_array.
  - apply at2_pow_half_array.
Qed.

(** C9. The wrapper hands back the id array of [index.search] as it is: the
    ids it returns, and whether it returns at all, are those of the index. *)
Theorem search_index_ids_unchanged (index : Index) (embedded : matrix float32)
    (k : Z) :
  snd <$> search_index index embedded k = snd <$> index_search index embedded k.
Proof.
  unfold search_index.
  destruct (index_search index embedded k) as [[D I_] | e]; reflexivity.
Qed.

End Wrapper.

(** ** The result writer *)

Section ResultWriter.

Lemma create_dataset_fresh (outpath name : string) (data : ndarray)
    (chunks : bool) (ds : gmap string dataset) (fs : filesystem) :
  ds !! name = None ->
  H5.create_dataset outpath name data chunks (<[outpath := H5File ds]> fs)
  = (Ok tt, <[outpath := H5File (<[name := Dataset data chunks]> ds)]> fs).
Proof.
  intros Hfresh. unfold H5.create_dataset.
  rewrite lookup_insert_eq, Hfresh, insert_insert_eq. reflexivity.
Qed.

(** The container the writer leaves at [outpath]. *)
Lemma write_search_results_store (D : matrix float32) (I : matrix Z)
    (outpath : string) (fs : filesystem) :
  write_search_results D I outpath fs =
    (Ok tt,
     <[outpath :=
         H5File (<["I" := Dataset (IntMatrix I) true]>
                (<["D" := Dataset (FloatMatrix D) true]>
                (<["spectrum_ids" :=
                     Dataset (IntVector (Np.arange (Np.shape0 D))) true]> ∅)))]> fs).
Proof.
  unfold write_search_results, mbind, io_bind.
  unfold H5.open_w at 1.
  rewrite create_dataset_fresh by apply lookup_empty.
  rewrite create_dataset_fresh by (rewrite lookup_insert_ne by done; apply lookup_empty).
  rewrite create_dataset_fresh
    by (rewrite !lookup_insert_ne by done; apply lookup_empty).
  reflexivity.
Qed.

Lemma arange_lookup (n i : nat) :
  (i < n)%nat -> Np.arange (Z.of_nat n) !! i = Some (Z.of_nat i).
Proof.
  intros Hi. unfold Np.arange. rewrite lookup_seqZ. split; lia.
Qed.

(** C4. The writer succeeds and leaves at [outpath] a container with exactly
    three datasets, each chunked: [spectrum_ids], the sequence 0 .. Q-1 for
    the Q rows of [D]; [D], the distance matrix; [I], the id matrix. *)
Theorem write_search_results_three_datasets (D : matrix float32)
    (I : matrix Z) (outpath : string) (fs : filesystem) :
  exists (fs' : filesystem) (datasets : gmap string dataset) (ids : list Z),
    write_search_results D I outpath fs = (Ok tt, fs') /\
    fs' !! outpath = Some (H5File datasets) /\
    dom datasets = {[ "spectrum_ids"; "D"; "I" ]} /\
    size datasets = 3%nat /\
    datasets !! "spectrum_ids" = Some (Dataset (IntVector ids) true) /\
    length ids = length D /\
    (forall q : nat, (q < length D)%nat -> ids !! q = Some (Z.of_nat q)) /\
    datasets !! "D" = Some (Dataset (FloatMatrix D) true) /\
    datasets !! "I" = Some (Dataset (IntMatrix I) true).
Proof.
  eexists _, _, (Np.arange (Np.shape0 D)).
  split; [apply write_search_results_store |].
  split; [apply lookup_insert_eq |].
  split; [rewrite !dom_insert_L, dom_empty_L; set_solver |].
  split.
  { rewrite !map_size_insert_None, map_size_empty; [reflexivity | ..].
    - apply lookup_empty.
    - rewrite lookup_insert_ne by done. apply lookup_empty.
    - rewrite !lookup_insert_ne by done. apply lookup_empty. }
  split; [rewrite !lookup_insert_ne by done; apply lookup_insert_eq |].
  split; [unfold Np.arange, Np.shape0; rewrite length_seqZ; lia |].
  split; [intros q Hq; apply arange_lookup, Hq |].
  split; [rewrite lookup_insert_ne by done; apply lookup_insert_eq |].
  apply lookup_insert_eq.
Qed.

(** Every other path of the store is left as it was. *)
Lemma write_search_results_frame (D : matrix float32) (I : matrix Z)
    (outpath other : string) (fs : filesystem) :
  other <> outpath ->
  (write_search_results D I outpath fs).2 !! other = fs !! other.
Proof.
  intros Hne. rewrite write_search_results_store. simpl.
  apply lookup_insert_ne. congruence.
Qed.

End ResultWriter.

(** ** Index persistence *)

Section Persistence.
Context {Index : Type} `{Faiss Index}.

(** Without a GPU the two wrappers are the library calls. *)
Lemma write_faiss_index_cpu (index : Index) (out_filepath : string) :
  write_faiss_index 0 index out_filepath = faiss_write_index index out_filepath.
Proof. reflexivity. Qed.

Lemma read_faiss_index_cpu (fs : filesystem) (index_filepath : string) :
  read_faiss_index 0 fs index_filepath = faiss_read_index fs index_filepath.
Proof.
  unfold read_faiss_index. destruct (faiss_read_index fs index_filepath); reflexivity.
Qed.

(** With one, the index goes to the CPU before it is written and back to
    GPU 0 after it is read: what is read back after a write is what the
    library reads back, moved across devices on either side. *)
Lemma read_after_write_gpu (num_gpus : Z) (index : Index) (filepath : string)
    (fs : filesystem) :
  num_gpus <> 0 ->
  read_faiss_index num_gpus (write_faiss_index num_gpus index filepath fs).2 filepath
  = index_cpu_to_gpu StandardGpuResources 0
      <$> faiss_read_index
            (faiss_write_index (index_gpu_to_cpu index) filepath fs).2 filepath.
Proof.
  intros Hgpu. apply Z.eqb_neq in Hgpu.
  unfold read_faiss_index, write_faiss_index. rewrite Hgpu. cbn [negb].
  destruct (faiss_read_index _ filepath); reflexivity.
Qed.

End Persistence.

(** ** Index construction *)

Section Construction.

(** A partitioned index, on either backend. *)
Lemma make_faiss_index_ivfflat (self : Faiss_write_index)
    (num_gpus n_dimensions : Z) :
  make_faiss_index self num_gpus n_dimensions "ivfflat" =
    Ok (if negb (num_gpus =? 0)
        then GpuIndexIVFFlat StandardGpuResources n_dimensions
               DEFAULT_IVF_NLIST METRIC_L2 GpuIndexIVFFlatConfig
        else IndexIVFFlat (IndexFlatL2 n_dimensions) n_dimensions
               DEFAULT_IVF_NLIST METRIC_L2).
Proof. unfold make_faiss_index. destruct (negb (num_gpus =? 0)); reflexivity. Qed.

(** A flat index, on either backend: it has no clusters. *)
Lemma make_faiss_index_flat (self : Faiss_write_index)
    (num_gpus n_dimensions : Z) :
  exists index : faiss_index,
    make_faiss_index self num_gpus n_dimensions "flat" = Ok index /\
    kind_of index = Flat /\ nlist_of index = None.
Proof.
  unfold make_faiss_index.
  destruct (negb (num_gpus =? 0)); eexists; repeat split; reflexivity.
Qed.

(** Both backends build the same kind of index with the same dimension and
    cluster count, and refuse the same index types. *)
Lemma make_faiss_index_backends (self : Faiss_write_index)
    (gpus cpus n_dimensions : Z) (index_type : string) :
  gpus <> 0 -> cpus = 0 ->
  match make_faiss_index self gpus n_dimensions index_type,
        make_faiss_index self cpus n_dimensions index_type with
  | Ok g, Ok c =>
      kind_of g = kind_of c /\ dimension_of g = dimension_of c /\
      nlist_of g = nlist_of c
  | Raise e, Raise e' => e = e'
  | _, _ => False
  end.
Proof.
  intros Hg ->. unfold make_faiss_index.
  apply Z.eqb_neq in Hg. rewrite Hg. simpl negb. cbv iota.
  destruct (String.eqb index_type "flat"); [repeat split |].
  destruct (String.eqb index_type "ivfflat"); [repeat split | reflexivity].
Qed.

(** C5, as amended.  The cluster count of a partitioned index is the module
    constant [DEFAULT_IVF_NLIST], which is 100, whatever corpus the builder
    holds, on either backend. *)
Theorem ivf_nlist_is_constant (self : Faiss_write_index)
    (num_gpus n_dimensions : Z) :
  exists index : faiss_index,
    make_faiss_index self num_gpus n_dimensions "ivfflat" = Ok index /\
    kind_of index = IVFFlat /\
    nlist_of index = Some DEFAULT_IVF_NLIST /\
    DEFAULT_IVF_NLIST = 100.
Proof.
  rewrite make_faiss_index_ivfflat.
  destruct (negb (num_gpus =? 0)); eexists; repeat split; reflexivity.
Qed.

(** C5, as stated, fails: a corpus of one vector and a corpus of two get the
    same 100 clusters, so the count is no multiple of the corpus size. *)
Lemma nlist_not_proportional :
  let one := {| tmp := None; spectra_vectors := [[Np.of_Z 0]] |} in
  let two := {| tmp := None; spectra_vectors := [[Np.of_Z 0]; [Np.of_Z 1]] |} in
  nlist_of <$> make_faiss_index one 0 1 "ivfflat" = Ok (Some 100) /\
  nlist_of <$> make_faiss_index two 0 1 "ivfflat" = Ok (Some 100) /\
  corpus_size two = 2 * corpus_size one /\
  ~ nlist_proportional.
Proof.
  cbv zeta. split; [reflexivity |]. split; [reflexivity |]. split; [reflexivity |].
  intros (num & den & Hnum & Hden & Hprop).
  destruct (Hprop {| tmp := None; spectra_vectors := [[Np.of_Z 0]] |} 0 1 _ eq_refl)
    as (n1 & Hn1 & He1).
  destruct (Hprop {| tmp := None; spectra_vectors := [[Np.of_Z 0]; [Np.of_Z 1]] |}
              0 1 _ eq_refl) as (n2 & Hn2 & He2).
  cbn in Hn1, Hn2. injection Hn1 as <-. injection Hn2 as <-.
  unfold corpus_size, Np.shape0 in He1, He2. cbn in He1, He2. lia.
Qed.

End Construction.

(** ** The exact index: selection and ranking *)

Module FlatIndexFacts.
Import FlatIndex.

Section Selection.
Context {F : Type} `{Scalar F}.

Lemma select_min_cons (c x : F * nat) (xs : list (F * nat)) :
  select_min c (x :: xs) =
    if closer (select_min x xs).1 c
    then ((select_min x xs).1, c :: (select_min x xs).2)
    else (c, x :: xs).
Proof. cbn [select_min]. destruct (select_min x xs) as [m r]. reflexivity. Qed.

(** A round of the selection takes one candidate out and keeps the others. *)
Lemma select_min_perm (rest : list (F * nat)) (c m : F * nat)
    (r : list (F * nat)) :
  select_min c rest = (m, r) -> m :: r ≡ₚ c :: rest.
Proof.
  revert c m r. induction rest as [| x xs IH]; intros c m r Hsel.
  - injection Hsel as <- <-. reflexivity.
  - rewrite select_min_cons in Hsel.
    destruct (select_min x xs) as [m' r'] eqn:E. specialize (IH _ _ _ E).
    cbn [fst snd] in Hsel. destruct (closer m' c); injection Hsel as <- <-.
    + rewrite Permutation_swap. now apply Permutation_skip.
    + reflexivity.
Qed.

Lemma select_min_length (rest : list (F * nat)) (c : F * nat) :
  length (select_min c rest).2 = length rest.
Proof.
  destruct (select_min c rest) as [m r] eqn:E.
  apply select_min_perm, Permutation_length in E. simpl in *. lia.
Qed.

Lemma select_min_elem_of (rest : list (F * nat)) (c m y : F * nat)
    (r : list (F * nat)) :
  select_min c rest = (m, r) -> y ∈ m :: r -> y ∈ c :: rest.
Proof. intros Hsel Hy. now rewrite <- (select_min_perm _ _ _ _ Hsel). Qed.




Context (comparable : F -> Prop) `{!ScalarOrder F comparable}.




End Selection.

Section TopK.
Context {F : Type} `{Scalar F}.

Lemma top_k_nil (k : nat) : top_k k ([] : list (F * nat)) = replicate k NoResult.
Proof. induction k as [| k IH]; [reflexivity |]. cbn [top_k replicate]. now rewrite IH. Qed.

Lemma top_k_cons (k : nat) (c : F * nat) (rest : list (F * nat)) :
  top_k (S k) (c :: rest) =
    Neighbor (select_min c rest).1.1 (select_min c rest).1.2
    :: top_k k (select_min c rest).2.
Proof. cbn [top_k]. destruct (select_min c rest) as [m r]. reflexivity. Qed.

(** Every row has [k] slots. *)
Lemma top_k_length (k : nat) (cands : list (F * nat)) : length (top_k k cands) = k.
Proof.
  revert cands. induction k as [| k IH]; intros cands; [reflexivity |].
  destruct cands as [| c rest].
  - rewrite top_k_nil. apply length_replicate.
  - rewrite top_k_cons. cbn [length]. now rewrite IH.
Qed.

Lemma valid_count_replicate (k : nat) :
  valid_count (replicate k (NoResult : slot F)) = 0%nat.
Proof.
  unfold valid_count. induction k as [| k IH]; [reflexivity |].
  cbn [replicate]. rewrite filter_cons_False by (cbn; congruence). exact IH.
Qed.

Lemma no_result_count_replicate (k : nat) :
  no_result_count (replicate k (NoResult : slot F)) = k.
Proof.
  unfold no_result_count. induction k as [| k IH]; [reflexivity |].
  cbn [replicate]. rewrite filter_cons_True by reflexivity.
  cbn [length]. now rewrite IH.
Qed.

(** A row holds as many neighbours as there are candidates, up to [k], and
    marks the remaining slots as no-result. *)
Lemma top_k_counts (k : nat) (cands : list (F * nat)) :
  valid_count (top_k k cands) = Nat.min k (length cands) /\
  no_result_count (top_k k cands) = (k - length cands)%nat.
Proof.
  revert cands. induction k as [| k IH]; intros cands; [split; reflexivity |].
  destruct cands as [| c rest].
  - rewrite top_k_nil, valid_count_replicate, no_result_count_replicate.
    cbn [length]. split; lia.
  - rewrite top_k_cons. destruct (IH (select_min c rest).2) as [Hv Hn].
    rewrite select_min_length in Hv, Hn. unfold valid_count, no_result_count in *.
    rewrite filter_cons_True by reflexivity.
    rewrite filter_cons_False by (cbn; congruence).
    cbn [length]. rewrite Hv, Hn. split; lia.
Qed.

(** The neighbours of a row are candidates. *)
Lemma top_k_from (k : nat) (cands : list (F * nat)) (d : F) (i : nat) :
  Neighbor d i ∈ top_k k cands -> (d, i) ∈ cands.
Proof.
  revert cands. induction k as [| k IH]; intros cands Hin.
  - apply elem_of_nil in Hin as [].
  - destruct cands as [| c rest].
    + rewrite top_k_nil in Hin. apply elem_of_replicate in Hin as [Hin _].
      discriminate Hin.
    + rewrite top_k_cons in Hin.
      destruct (select_min c rest) as [m r] eqn:E. cbn [fst snd] in Hin.
      apply (select_min_elem_of _ _ _ _ _ E).
      apply elem_of_cons in Hin as [Hin | Hin].
      * injection Hin as -> ->. destruct m. now left.
      * right. now apply IH.
Qed.


Context (comparable : F -> Prop) `{!ScalarOrder F comparable}.



End TopK.

Section FlatSearch.
Context {F : Type} `{Scalar F}.

Lemma candidates_from_length (i : nat) (query : list F) (vectors : list (list F)) :
  length (candidates_from i query vectors) = length vectors.
Proof.
  revert i. induction vectors as [| v vs IH]; intros i; [reflexivity |].
  cbn [candidates_from length]. now rewrite IH.
Qed.

(** Ids are insertion positions. *)
Lemma candidates_from_ids (i : nat) (query : list F) (vectors : list (list F))
    (c : F * nat) :
  c ∈ candidates_from i query vectors ->
  (i <= c.2 < i + length vectors)%nat.
Proof.
  revert i. induction vectors as [| v vs IH]; intros i Hin.
  - apply elem_of_nil in Hin as [].
  - cbn [candidates_from] in Hin. apply elem_of_cons in Hin as [-> | Hin].
    + cbn [snd length]. lia.
    + apply IH in Hin. cbn [length]. lia.
Qed.


Lemma dimensions_checked (d : nat) (queries : list (list F)) :
  Forall (fun q => length q = d) queries ->
  forallb (fun q => Nat.eqb (length q) d) queries = true.
Proof.
  intros Hall. apply forallb_forall. intros q Hq.
  rewrite Forall_forall in Hall. apply Nat.eqb_eq, Hall, list_elem_of_In, Hq.
Qed.

(** Queries of the index's dimension are all answered. *)
Lemma search_ok (ix : t F) (queries : list (list F)) (k : nat) :
  Forall (fun q => length q = dimension ix) queries ->
  search ix queries k = Ok (search_one ix k <$> queries).
Proof. intros Hall. unfold search. now rewrite dimensions_checked. Qed.

(** A query of another dimension fails the whole batch. *)
Lemma search_dimension_mismatch (ix : t F) (queries : list (list F)) (k : nat) :
  ~ Forall (fun q => length q = dimension ix) queries ->
  search ix queries k = Raise (OtherError "DimensionMismatch" "search").
Proof.
  intros Hnot. unfold search.
  destruct (forallb _ queries) eqn:Hb; [| reflexivity].
  exfalso. apply Hnot, Forall_forall. intros q Hq.
  rewrite forallb_forall in Hb. apply Nat.eqb_eq, Hb, list_elem_of_In, Hq.
Qed.

Lemma search_one_counts (ix : t F) (k : nat) (query : list F) :
  length (search_one ix k query) = k /\
  valid_count (search_one ix k query) = Nat.min k (length (corpus ix)) /\
  no_result_count (search_one ix k query) = (k - length (corpus ix))%nat.
Proof.
  unfold search_one. split; [apply top_k_length |].
  rewrite <- (candidates_from_length 0 query (corpus ix)). apply top_k_counts.
Qed.

(** A neighbour's id names a corpus vector, and its distance is the
    squared-L2 distance from the query to that vector. *)
Lemma search_one_neighbor (ix : t F) (k : nat) (query : list F) (d : F) (i : nat) :
  Neighbor d i ∈ search_one ix k query -> (i < length (corpus ix))%nat.
Proof.
  intros Hin. apply top_k_from, candidates_from_ids in Hin. cbn [snd] in Hin. lia.
Qed.

Context (comparable : F -> Prop) `{!ScalarOrder F comparable}.





End FlatSearch.

(** *** Through the module's wrapper *)

Section Arrays.
Variable no_result_distance : float32.
Variable no_result_id : Z.

Abbreviation flat_searchable := (searchable no_result_distance no_result_id).
Abbreviation id_row := (fun row : list (slot float32) => slot_id no_result_id <$> row).
Abbreviation distance_row :=
  (fun row : list (slot float32) => slot_distance no_result_distance <$> row).

(** The wrapper on a flat index: the rows of the exact search, distances
    square-rooted. *)
Lemma flat_search_index_ok (ix : t float32) (embedded : matrix float32) (k : Z) :
  Forall (fun q => length q = dimension ix) embedded ->
  @search_index _ flat_searchable ix embedded k =
    Ok (Np.pow_half_array (distance_row <$> (search_one ix (Z.to_nat k) <$> embedded)),
        id_row <$> (search_one ix (Z.to_nat k) <$> embedded)).
Proof.
  intros Hdims. apply search_index_ok.
  unfold index_search, searchable. now rewrite search_ok.
Qed.

Hypothesis sentinel_negative : no_result_id < 0.

(** In the id array, the ids that name a corpus vector are those of the
    neighbours, and the sentinels are the no-result slots. *)
Lemma id_row_counts (n : nat) (row : list (slot float32)) :
  (forall (d : float32) (i : nat), Neighbor d i ∈ row -> (i < n)%nat) ->
  length (valid_ids n (id_row row)) = valid_count row /\
  length (filter (fun i => i = no_result_id) (id_row row)) = no_result_count row.
Proof.
  unfold valid_ids, valid_count, no_result_count.
  induction row as [| s row IH]; intros Hids; [split; reflexivity |].
  destruct IH as [IHv IHn]; [intros d i Hin; apply (Hids d i); now right |].
  rewrite fmap_cons. destruct s as [d i |]; cbn [slot_id].
  - assert (i < n)%nat by (apply (Hids d i); now left).
    rewrite (filter_cons_True (fun i => 0 <= i < Z.of_nat n)) by lia.
    rewrite (filter_cons_False (fun i => i = no_result_id)) by lia.
    rewrite (filter_cons_True (fun s => is_neighbor s = true)) by reflexivity.
    rewrite (filter_cons_False (fun s => is_neighbor s = false)) by (cbn; congruence).
    cbn [length]. split; [now rewrite IHv | exact IHn].
  - rewrite (filter_cons_False (fun i => 0 <= i < Z.of_nat n)) by lia.
    rewrite (filter_cons_True (fun i => i = no_result_id)) by reflexivity.
    rewrite (filter_cons_False (fun s => is_neighbor s = true)) by (cbn; congruence).
    rewrite (filter_cons_True (fun s => is_neighbor s = false)) by reflexivity.
    cbn [length]. split; [exact IHv | now rewrite IHn].
Qed.

(** Searching a corpus of [n] vectors for [k] neighbours succeeds whatever
    [n] and [k]: each row of ids has [k] entries, [min k n] of them ids of
    corpus vectors and the other [k - n] the sentinel. *)
Lemma search_index_counts (ix : t float32) (embedded : matrix float32) (k : Z) :
  Forall (fun q => length q = dimension ix) embedded ->
  exists (D : matrix float32) (I_ : matrix Z),
    @search_index _ flat_searchable ix embedded k = Ok (D, I_) /\
    length I_ = length embedded /\
    Forall (fun row =>
              length row = Z.to_nat k /\
              length (valid_ids (length (corpus ix)) row)
                = Nat.min (Z.to_nat k) (length (corpus ix)) /\
              length (filter (fun i => i = no_result_id) row)
                = (Z.to_nat k - length (corpus ix))%nat) I_.
Proof.
  intros Hdims. eexists _, _. split; [now apply flat_search_index_ok |].
  split; [now rewrite !length_fmap |].
  apply Forall_fmap, Forall_fmap, Forall_forall. intros q _.
  unfold compose. cbv beta.
  destruct (search_one_counts ix (Z.to_nat k) q) as (Hlen & Hv & Hn).
  destruct (id_row_counts (length (corpus ix)) (search_one ix (Z.to_nat k) q))
    as [Hv' Hn']; [intros d i; apply search_one_neighbor |].
  rewrite length_fmap. split; [exact Hlen |].
  split; [rewrite Hv'; exact Hv | rewrite Hn'; exact Hn].
Qed.

(** C7. With a sentinel id that names no vector: on a corpus of one vector
    and [k = 5] the search succeeds and every query's row of ids holds the
    one neighbour, id 0, then four sentinels; on an index with no vectors
    the search succeeds as well, every slot of every row being the
    sentinel: a result without neighbours, not an exception. *)
Theorem search_with_fewer_than_k :
  (forall (d : nat) (v : list float32) (embedded : matrix float32),
     Forall (fun q => length q = d) embedded ->
     exists (D : matrix float32) (I_ : matrix Z),
       @search_index _ flat_searchable (Build d [v]) embedded 5 = Ok (D, I_) /\
       length I_ = length embedded /\
       Forall (fun row =>
                 row = [0; no_result_id; no_result_id; no_result_id; no_result_id] /\
                 length (valid_ids 1 row) = 1%nat /\
                 length (filter (fun i => i = no_result_id) row) = 4%nat) I_) /\
  (forall (d : nat) (embedded : matrix float32) (k : Z),
     Forall (fun q => length q = d) embedded ->
     exists (D : matrix float32) (I_ : matrix Z),
       @search_index _ flat_searchable (Build d []) embedded k = Ok (D, I_) /\
       length I_ = length embedded /\
       Forall (fun row =>
                 row = replicate (Z.to_nat k) no_result_id /\
                 valid_ids 0 row = []) I_).
Proof.
  split.
  - intros d v embedded Hdims. eexists _, _.
    split; [now apply (flat_search_index_ok (Build d [v])) |].
    split; [now rewrite !length_fmap |].
    apply Forall_fmap, Forall_fmap, Forall_forall. intros q _.
    unfold compose. cbv beta.
    assert (slot_id no_result_id <$> search_one (Build d [v]) (Z.to_nat 5) q
            = [0; no_result_id; no_result_id; no_result_id; no_result_id])
      as -> by reflexivity.
    split; [reflexivity |]. unfold valid_ids. split.
    + rewrite filter_cons_True by lia.
      rewrite !(filter_cons_False _ no_result_id) by lia. reflexivity.
    + rewrite filter_cons_False by lia.
      rewrite !(filter_cons_True _ no_result_id) by reflexivity. reflexivity.
  - intros d embedded k Hdims. eexists _, _.
    split; [now apply (flat_search_index_ok (Build d [])) |].
    split; [now rewrite !length_fmap |].
    apply Forall_fmap, Forall_fmap, Forall_forall. intros q _.
    unfold compose. cbv beta. unfold search_one. cbn [corpus candidates_from].
    rewrite top_k_nil, fmap_replicate. cbn [slot_id].
    split; [reflexivity |]. unfold valid_ids.
    induction (Z.to_nat k) as [| n IHn]; [reflexivity |].
    cbn [replicate]. rewrite filter_cons_False by lia. exact IHn.
Qed.

End Arrays.

(** *** The orders of the integers and of float32 *)

Section Orders.

#[global] Instance Z_order : ScalarOrder Z (fun _ => True).
Proof.
  split.
  - intros x y _ _. cbn. rewrite !Z.leb_le. lia.
  - intros x y z _ _ _. cbn. rewrite !Z.leb_le. lia.
Qed.

(** On numbers, the float32 comparison is the comparison of their keys. *)
Lemma SFleb_key (x y : float32) :
  not_nan x -> not_nan y ->
  SFleb x y = true <-> key_le (float_key x) (float_key y).
Proof.
  intros Hx Hy. unfold SFleb, SFcompare, key_le.
  destruct x as [sx | sx | | sx mx ex], y as [sy | sy | | sy my ey];
    try contradiction; try destruct sx; try destruct sy; cbn [float_key fst snd];
    try (split; [intros Hb; first [discriminate Hb | lia]
                | intros Hk; first [reflexivity | lia]]).
  - destruct (Z.compare_spec ex ey) as [He | He | He];
      [change (Pos.compare_cont Eq mx my) with (Pos.compare mx my);
       destruct (Pos.compare_spec mx my) as [Hm | Hm | Hm] | ..];
      cbn; (split; [intros Hb; first [discriminate Hb | lia]
                   | intros Hk; first [reflexivity | lia]]).
  - destruct (Z.compare_spec ex ey) as [He | He | He];
      [change (Pos.compare_cont Eq mx my) with (Pos.compare mx my);
       destruct (Pos.compare_spec mx my) as [Hm | Hm | Hm] | ..];
      cbn; (split; [intros Hb; first [discriminate Hb | lia]
                   | intros Hk; first [reflexivity | lia]]).
Qed.

Lemma key_le_total (a b : Z * Z * Z) : key_le a b \/ key_le b a.
Proof. unfold key_le. lia. Qed.

Lemma key_le_trans (a b c : Z * Z * Z) : key_le a b -> key_le b c -> key_le a c.
Proof. unfold key_le. lia. Qed.

(** The float32 comparison orders the floats that are not NaN. *)
#[global] Instance float32_order : ScalarOrder float32 not_nan.
Proof.
  split.
  - intros x y Hx Hy. cbn [leb float32_scalar]. rewrite !SFleb_key by assumption.
    apply key_le_total.
  - intros x y z Hx Hy Hz. cbn [leb float32_scalar].
    rewrite !SFleb_key by assumption. apply key_le_trans.
Qed.

End Orders.

(** *** Flat search through the wrapper, in float32 *)

Section NearestFirst.
Variable no_result_distance : float32.
Variable no_result_id : Z.


End NearestFirst.
End FlatIndexFacts.

(** ** Worked examples *)

Section Examples.
Import FlatIndex FlatIndexFacts.

Abbreviation example_searchable :=
  (searchable example_no_result_distance example_no_result_id).

(** The specification's example: the two nearest of the corpus to the
    origin are id 0 at distance 0 and, of the two vectors at distance 1,
    the one with the lower id. *)
Example flat_search_example :
  search (Build 2 example_corpus) [example_query] 2
  = Ok [[Neighbor 0 0%nat; Neighbor 1 1%nat]].
Proof. reflexivity. Qed.

(** All four neighbours, then no-result slots. *)
Example flat_search_example_all :
  search (Build 2 example_corpus) [example_query] 6
  = Ok [[Neighbor 0 0%nat; Neighbor 1 1%nat; Neighbor 1 2%nat;
         Neighbor 50 3%nat; NoResult; NoResult]].
Proof. reflexivity. Qed.

(** A query of the wrong dimension. *)
Example flat_search_example_mismatch :
  search (Build 2 example_corpus) [[0; 0; 0]] 2
  = Raise (OtherError "DimensionMismatch" "search").
Proof. reflexivity. Qed.

(** Through the wrapper, in float32: squared distance 25 comes back as 5. *)
Example search_index_example :
  @search_index _ example_searchable (Build 2 [single_vector]) [example_query32] 1
  = Ok ([[Np.of_Z 5]], [[0]]).
Proof. vm_compute. reflexivity. Qed.

(** The square root is taken once: taking it again gives another number. *)
Example pow_half_twice :
  Np.pow_half (Np.of_Z 16) = Np.of_Z 4 /\
  Np.pow_half (Np.pow_half (Np.of_Z 16)) = Np.of_Z 2.
Proof. split; vm_compute; reflexivity. Qed.

(** Witness of C1 on the one-vector index. *)
Lemma search_index_square_roots_witness :
  @index_search _ example_searchable (Build 2 [single_vector]) [example_query32] 1
    = Ok ([[Np.of_Z 25]], [[0]]) /\
  exists D' : matrix float32,
    @search_index _ example_searchable (Build 2 [single_vector]) [example_query32] 1
      = Ok (D', [[0]]) /\
    length D' = 1%nat /\
    forall q j : nat,
      Np.at2 D' q j = SFsqrt prec32 emax32 <$> Np.at2 [[Np.of_Z 25]] q j.
Proof.
  split; [vm_compute; reflexivity |].
  apply (@search_index_square_roots _ example_searchable
           (Build 2 [single_vector]) [example_query32] 1 [[Np.of_Z 25]] [[0]]).
  vm_compute. reflexivity.
Defined.



(** The same search in float32. *)
Example flat_search_example32 :
  search (Build 2 example_corpus32) [example_query32] 2
  = Ok [[Neighbor (Np.of_Z 0) 0%nat; Neighbor (Np.of_Z 1) 1%nat]].
Proof. vm_compute. reflexivity. Qed.

(** Witness of C7: one vector and five slots, with -1 as the sentinel. *)
Lemma search_with_fewer_than_k_witness :
  example_no_result_id < 0 /\
  exists (D : matrix float32) (I_ : matrix Z),
    @search_index _ example_searchable (Build 2 [single_vector]) [example_query32] 5
      = Ok (D, I_) /\
    length I_ = 1%nat /\
    Forall (fun row =>
              row = [0; -1; -1; -1; -1] /\
              length (valid_ids 1 row) = 1%nat /\
              length (filter (fun i => i = -1) row) = 4%nat) I_.
Proof.
  assert (example_no_result_id < 0) as Hneg by (unfold example_no_result_id; lia).
  split; [exact Hneg |].
  apply (proj1 (search_with_fewer_than_k example_no_result_distance
                  example_no_result_id Hneg) 2%nat single_vector [example_query32]).
  repeat constructor.
Defined.

(** After the wrapper's square root, two different squared distances can
    round to the same float32: the vectors below are at squared distances
    1 + 2^-23 (id 0) and 1 (id 1) from the origin, and both come back at
    distance 1, in the order of their squared distances. *)
Example sqrt_rounding_merges :
  let near_one := [Np.of_Z 1; S754_finite false 11863283 (-35)] in
  let one := [Np.of_Z 1; Np.of_Z 0] in
  @index_search _ example_searchable (Build 2 [near_one; one]) [example_query32] 2
    = Ok ([[Np.of_Z 1; S754_finite false 8388609 (-23)]], [[1; 0]]) /\
  @search_index _ example_searchable (Build 2 [near_one; one]) [example_query32] 2
    = Ok ([[Np.of_Z 1; Np.of_Z 1]], [[1; 0]]).
Proof. split; vm_compute; reflexivity. Qed.

(** The empty index answers with sentinels only. *)
Example search_index_empty :
  @search_index _ example_searchable (Build 2 []) [example_query32] 3
  = Ok ([[Np.pow_half example_no_result_distance;
          Np.pow_half example_no_result_distance;
          Np.pow_half example_no_result_distance]],
        [[-1; -1; -1]]).
Proof. vm_compute. reflexivity. Qed.

(** Witness of C3: the extension is matched whatever the case of its
    letters, and the container's MATRIX dataset is returned. *)
Lemma loader_three_formats_witness :
  ends_with_ci "run/SPECTRA.H5" ".h5" /\
  @load_embedded_spectra_vector example_numpy example_fs "run/SPECTRA.H5"
  = Ok (FloatMatrix [[Np.of_Z 1]]).
Proof.
  assert (ends_with_ci "run/SPECTRA.H5" ".h5") as Hext
    by (exists "run/SPECTRA", ".H5"; split; reflexivity).
  split; [exact Hext |].
  pose proof (@loader_three_formats example_numpy example_fs "run/SPECTRA.H5") as Hload.
  assert (example_fs !! "run/SPECTRA.H5"
          = Some (H5File {[ "MATRIX" := Dataset (FloatMatrix [[Np.of_Z 1]]) false ]}))
    as Hfile by reflexivity.
  rewrite Hfile in Hload. destruct Hload as [Hh5 _].
  rewrite (Hh5 Hext). reflexivity.
Defined.

(** A file that exists under an extension the loader does not know, a file
    with no extension at all, and a path that is not there. *)
Example loader_unknown_extension :
  @load_embedded_spectra_vector example_numpy example_fs "notes.doc"
  = Raise (ValueError "read_array_file: Unknown extension .doc for file notes.doc").
Proof. vm_compute. reflexivity. Qed.

Example loader_npy :
  @load_embedded_spectra_vector example_numpy example_fs "vectors.npy"
  = Ok (FloatMatrix [[Np.of_Z 2]]).
Proof. vm_compute. reflexivity. Qed.

(** Witness of C10: a missing path with an unsupported extension raises the
    file-not-found exception, not the unknown-extension error. *)
Lemma loader_existence_first_witness :
  path_exists example_fs "missing.xyz" = false /\
  @load_embedded_spectra_vector example_numpy example_fs "missing.xyz"
  = Raise (PyException (file_not_found_message "missing.xyz")).
Proof.
  assert (path_exists example_fs "missing.xyz" = false) as Hmiss by reflexivity.
  split; [exact Hmiss |].
  exact (proj1 (@loader_existence_first example_numpy example_fs "missing.xyz") Hmiss).
Defined.

(** The datasets written for a result of two queries and [k = 1]. *)
Example write_search_results_example :
  (write_search_results [[Np.of_Z 5]; [Np.of_Z 0]] [[0]; [3]] "out.h5" example_fs).2
    !! "out.h5"
  = Some (H5File (<["I" := Dataset (IntMatrix [[0]; [3]]) true]>
                 (<["D" := Dataset (FloatMatrix [[Np.of_Z 5]; [Np.of_Z 0]]) true]>
                 (<["spectrum_ids" := Dataset (IntVector [0; 1]) true]> ∅)))).
Proof. rewrite write_search_results_store. apply lookup_insert_eq. Qed.

End Examples.

(* ===================================================================== *)
(** * Part III: further properties of the module *)
(* ===================================================================== *)

(** ** Index construction, continued *)

Section ConstructionMore.

(** X1. [make_faiss_index] knows two index types, spelled exactly [flat] and
    [ivfflat]: for these it builds an index of the requested kind and
    dimension, and for any other string it raises the [ValueError] that
    names the string, on either backend. *)
Theorem make_faiss_index_known_types (self : Faiss_write_index)
    (num_gpus n_dimensions : Z) (index_type : string) :
  (index_type = "flat" \/ index_type = "ivfflat" ->
   exists index : faiss_index,
     make_faiss_index self num_gpus n_dimensions index_type = Ok index /\
     dimension_of index = n_dimensions /\
     kind_of index = (if String.eqb index_type "flat" then Flat else IVFFlat)) /\
  (index_type <> "flat" -> index_type <> "ivfflat" ->
   make_faiss_index self num_gpus n_dimensions index_type
   = Raise (ValueError ("Unknown index_type " +:+ index_type))).
Proof.
  unfold make_faiss_index. split.
  - intros [-> | ->]; destruct (negb (num_gpus =? 0));
      eexists; repeat split; reflexivity.
  - intros Hflat Hivf.
    apply String.eqb_neq in Hflat, Hivf. rewrite Hflat, Hivf.
    destruct (negb (num_gpus =? 0)); reflexivity.
Qed.

(** X2. The two backends are built alike: with a GPU and without one,
    [make_faiss_index] fails for the same index types with the same
    exception, and otherwise builds indexes of the same kind, dimension and
    cluster count, the one on the GPU and the other not. *)
Theorem make_faiss_index_backends_agree (self : Faiss_write_index)
    (gpus cpus n_dimensions : Z) (index_type : string) :
  gpus <> 0 -> cpus = 0 ->
  match make_faiss_index self gpus n_dimensions index_type,
        make_faiss_index self cpus n_dimensions index_type with
  | Ok g, Ok c =>
      kind_of g = kind_of c /\ dimension_of g = dimension_of c /\
      nlist_of g = nlist_of c /\
      is_gpu_index g = true /\ is_gpu_index c = false
  | Raise e, Raise e' => e = e'
  | _, _ => False
  end.
Proof.
  intros Hg ->. unfold make_faiss_index.
  apply Z.eqb_neq in Hg. rewrite Hg. cbn [negb Z.eqb].
  destruct (String.eqb index_type "flat"); [repeat split |].
  destruct (String.eqb index_type "ivfflat"); [repeat split | reflexivity].
Qed.

End ConstructionMore.

(** ** The loader and the writer, continued *)

Section FilesMore.
Context `{NumpyIO}.

Lemma no_dot_not_extension (filepath ext : string) :
  no_dot filepath = true -> no_dot ext = false ->
  String.eqb (extension_lower filepath) ext = false.
Proof.
  intros Hdot Hext. apply String.eqb_neq. intros Heq.
  apply extension_lower_no_dot in Hdot. rewrite Heq in Hdot. congruence.
Qed.

(** X3. An existing path without any dot is never loaded: the loader raises
    the unknown-extension [ValueError].  For a path of ASCII characters the
    message is the one computed here: [rfind] answers -1, the slice is the
    last character of the path, and that character, lower-cased, stands in
    the place of the extension. *)
Theorem loader_path_without_dot (fs : filesystem) (filepath : string) :
  no_dot filepath = true ->
  path_exists fs filepath = true ->
  (exists msg : string,
     load_embedded_spectra_vector fs filepath = Raise (ValueError msg)) /\
  (is_ascii filepath = true ->
   extension_lower filepath = Py.lower (Py.slice_from filepath (-1)) /\
   load_embedded_spectra_vector fs filepath
   = Raise (ValueError (unknown_extension_message filepath))).
Proof.
  intros Hdot Hex.
  assert (load_embedded_spectra_vector fs filepath
          = Raise (ValueError (unknown_extension_message filepath))) as Hload.
  { apply path_exists_true in Hex as [f Hf]. rewrite (load_present _ _ _ Hf).
    rewrite (no_dot_not_extension filepath ".h5" Hdot eq_refl).
    rewrite (no_dot_not_extension filepath ".npy" Hdot eq_refl).
    rewrite (no_dot_not_extension filepath ".txt" Hdot eq_refl).
    reflexivity. }
  split; [eexists; exact Hload |].
  intros _. split; [| exact Hload].
  unfold extension_lower, Py.rfind. now rewrite rfind_from_no_dot.
Qed.

Lemma write_search_results_container (D : matrix float32) (I : matrix Z)
    (outpath : string) (fs : filesystem) :
  write_search_results D I outpath fs
  = (Ok tt, <[outpath := H5File (result_container D I)]> fs).
Proof. apply write_search_results_store. Qed.

(** X4. Writing replaces: the outcome does not depend on what the output
    path held before, so writing over an earlier result (or any other file)
    succeeds, never meets a dataset name that is taken, and leaves only the
    datasets of the last result. *)
Theorem write_search_results_replaces (D D0 : matrix float32) (I I0 : matrix Z)
    (outpath : string) (f : file) (fs : filesystem) :
  write_search_results D I outpath (<[outpath := f]> fs)
  = write_search_results D I outpath fs /\
  write_search_results D I outpath (write_search_results D0 I0 outpath fs).2
  = write_search_results D I outpath fs.
Proof.
  rewrite !write_search_results_container. cbn [snd].
  rewrite !insert_insert_eq. split; reflexivity.
Qed.

(** X5. Writing touches the output path only: every other path of the store
    holds afterwards what it held before. *)
Theorem write_search_results_other_paths (D : matrix float32) (I : matrix Z)
    (outpath other : string) (fs : filesystem) :
  other <> outpath ->
  (write_search_results D I outpath fs).2 !! other = fs !! other.
Proof.
  intros Hne. rewrite write_search_results_container. cbn [snd].
  apply lookup_insert_ne. congruence.
Qed.

(** X6. A result file is not an input file: written under a name ending in
    [.h5], it holds no dataset [MATRIX], and loading it raises the
    [KeyError] of the missing dataset. *)
Theorem written_results_do_not_load (D : matrix float32) (I : matrix Z)
    (outpath : string) (fs : filesystem) :
  ends_with_ci outpath ".h5" ->
  load_embedded_spectra_vector (write_search_results D I outpath fs).2 outpath
  = Raise (OtherError "KeyError" "Unable to open object (object does not exist)").
Proof.
  intros Hext. rewrite write_search_results_container. cbn [snd].
  rewrite (load_present _ _ (H5File (result_container D I)))
    by apply lookup_insert_eq.
  apply ext_h5 in Hext. rewrite Hext. reflexivity.
Qed.

End FilesMore.

(** ** Index persistence, continued *)

Section PersistenceMore.
Context {Index : Type} `{Faiss Index}.

(** X7. Where faiss reads back the index it was given to write,
    [read_faiss_index] after [write_faiss_index] on the same machine gives
    the index back as it was when there is no GPU, and otherwise the index
    moved to the CPU and from there to GPU 0, whichever device it was on. *)
Theorem read_after_write (num_gpus : Z) (index : Index) (filepath : string)
    (fs : filesystem) :
  let written :=
    if negb (num_gpus =? 0) then index_gpu_to_cpu index else index in
  faiss_read_index (faiss_write_index written filepath fs).2 filepath = Ok written ->
  read_faiss_index num_gpus (write_faiss_index num_gpus index filepath fs).2 filepath
  = Ok (if negb (num_gpus =? 0)
        then index_cpu_to_gpu StandardGpuResources 0 (index_gpu_to_cpu index)
        else index).
Proof.
  cbv zeta. unfold read_faiss_index, write_faiss_index. intros Hlib.
  destruct (negb (num_gpus =? 0)); rewrite Hlib; reflexivity.
Qed.

Context `{FaissBuild Index}.

Lemma io_bind_lift {A B} (r : result A) (f : A -> io B) (fs : filesystem) :
  (io_lift r ≫= f) fs =
    match r with
    | Ok a => f a fs
    | Raise e => (Raise e, fs)
    end.
Proof. unfold mbind, io_bind, io_lift. destruct r; reflexivity. Qed.

Lemma io_bind_read {A B} (g : filesystem -> result A) (f : A -> io B)
    (fs : filesystem) :
  (io_read g ≫= f) fs =
    match g fs with
    | Ok a => f a fs
    | Raise e => (Raise e, fs)
    end.
Proof. unfold mbind, io_bind, io_read. destruct (g fs); reflexivity. Qed.

Lemma make_flat (self : Faiss_write_index) (num_gpus d : Z) :
  exists index0 : faiss_index,
    make_faiss_index self num_gpus d "flat" = Ok index0 /\
    kind_of index0 = Flat /\ nlist_of index0 = None /\
    dimension_of index0 = d /\ is_gpu_index index0 = negb (num_gpus =? 0).
Proof.
  unfold make_faiss_index.
  destruct (negb (num_gpus =? 0)); eexists; repeat split; reflexivity.
Qed.

Lemma io_bind_run {A B} (m : io A) (f : A -> io B) (fs : filesystem) :
  (m ≫= f) fs =
    match m fs with
    | (Ok a, fs') => f a fs'
    | (Raise e, fs') => (Raise e, fs')
    end.
Proof. reflexivity. Qed.

(** [create_index], step by step. *)
Lemma create_index_run (self : Faiss_write_index) (num_gpus : Z)
    (vectors : array2d) (output_path : string) (fs : filesystem)
    (index0 : faiss_index) :
  make_faiss_index self num_gpus (np_shape1 vectors) "flat" = Ok index0 ->
  create_index self num_gpus vectors output_path fs =
    match faiss_add (faiss_construct index0) (spectra_vectors self) with
    | Ok index => write_faiss_index num_gpus index output_path fs
    | Raise e => (Raise e, fs)
    end.
Proof.
  intros Hmake. unfold create_index. cbv zeta.
  rewrite io_bind_lift, Hmake, io_bind_lift. reflexivity.
Qed.

(** X8. Constructing a [Faiss_write_index] always builds a flat index, never
    a partitioned one: its dimension is the [shape[1]] of the vectors (also
    of an array without rows), it is on the GPU when there is one, and it is
    given the rows to add.  If adding fails, the exception is raised and
    nothing is written; otherwise the store is what [write_faiss_index]
    leaves, and the object holds the vectors. *)
Theorem init_builds_flat_index (num_gpus : Z) (vectors_data : array2d)
    (output_path : string) (fs : filesystem) :
  exists index0 : faiss_index,
    kind_of index0 = Flat /\ nlist_of index0 = None /\
    dimension_of index0 = array_shape1 vectors_data /\
    is_gpu_index index0 = negb (num_gpus =? 0) /\
    match faiss_add (faiss_construct index0) (array_rows vectors_data) with
    | Raise e =>
        Faiss_write_index__init__ num_gpus vectors_data output_path fs
        = (Raise e, fs)
    | Ok index =>
        Faiss_write_index__init__ num_gpus vectors_data output_path fs
        = ((fun _ => {| tmp := None;
                        spectra_vectors := array_rows vectors_data |})
             <$> (write_faiss_index num_gpus index output_path fs).1,
           (write_faiss_index num_gpus index output_path fs).2)
    end.
Proof.
  destruct (make_flat {| tmp := None; spectra_vectors := array_rows vectors_data |}
              num_gpus (np_shape1 vectors_data))
    as (index0 & Hmake & Hkind & Hnlist & Hdim & Hgpu).
  exists index0. repeat (split; [assumption |]).
  unfold Faiss_write_index__init__. cbv zeta. rewrite io_bind_run.
  rewrite (create_index_run _ _ _ _ _ _ Hmake). cbn [spectra_vectors].
  destruct (faiss_add (faiss_construct index0) (array_rows vectors_data))
    as [index | e]; [| reflexivity].
  destruct (write_faiss_index num_gpus index output_path fs) as [[[] | e] fs'];
    reflexivity.
Qed.

(** X9. [create_index] takes only [shape[1]] from its argument: the vectors
    it adds are the attribute's, so two calls whose arguments have the same
    [shape[1]] do the same, whatever rows the arguments hold. *)
Theorem create_index_argument (self : Faiss_write_index) (num_gpus : Z)
    (vectors vectors' : array2d) (output_path : string) :
  array_shape1 vectors = array_shape1 vectors' ->
  create_index self num_gpus vectors output_path
  = create_index self num_gpus vectors' output_path.
Proof. intros Hshape. unfold create_index, np_shape1. now rewrite Hshape. Qed.

End PersistenceMore.

(** ** The search pipeline *)

Section Pipeline.
Context {Index : Type} `{Faiss Index} `{Searchable Index} `{NumpyIO}
        `{NumpyArrays}.

(** The pipeline is its stages, then the write. *)
Lemma execute_run (num_gpus : Z) (args : Args.t) (fs : filesystem) :
  execute_faiss_index_search num_gpus args fs =
    match stages num_gpus args fs with
    | Ok found => write_search_results found.1 found.2 (Args.output args) fs
    | Raise e => (Raise e, fs)
    end.
Proof.
  unfold execute_faiss_index_search, stages, mbind, io_bind, result_bind,
    io_read, io_lift.
  cbv zeta. cbn [app].
  destruct (read_faiss_index num_gpus fs (Args.index_file args)) as [index | e];
    [| reflexivity].
  destruct (load_embedded_spectra_vector fs (Args.input_embedded_spectra args))
    as [run_spectra | e]; [| reflexivity].
  destruct (np_vstack [run_spectra]) as [embedded_spectra | e]; [| reflexivity].
  destruct (np_astype_float32 embedded_spectra) as [embedded | e]; [| reflexivity].
  destruct (search_index index embedded (Args.k args)) as [found | e]; reflexivity.
Qed.

(** X10. When every stage succeeds, the pipeline succeeds and leaves at the
    output path the container of the search result: the ids the index
    returned for the loaded vectors, the square roots of its distances, and
    one query id for each row of distances. *)
Theorem execute_writes_the_search_result (num_gpus : Z) (args : Args.t)
    (fs : filesystem) (index : Index) (run_spectra embedded_spectra : ndarray)
    (embedded D : matrix float32) (I : matrix Z) :
  read_faiss_index num_gpus fs (Args.index_file args) = Ok index ->
  load_embedded_spectra_vector fs (Args.input_embedded_spectra args)
    = Ok run_spectra ->
  np_vstack [run_spectra] = Ok embedded_spectra ->
  np_astype_float32 embedded_spectra = Ok embedded ->
  index_search index embedded (Args.k args) = Ok (D, I) ->
  execute_faiss_index_search num_gpus args fs
  = (Ok tt,
     <[Args.output args := H5File (result_container (Np.pow_half_array D) I)]> fs).
Proof.
  intros Hread Hload Hstack Hcast Hsearch. rewrite execute_run.
  unfold stages, mbind, result_bind.
  rewrite Hread. cbv beta iota. rewrite Hload. cbv beta iota.
  rewrite Hstack. cbv beta iota. rewrite Hcast. cbv beta iota.
  rewrite (search_index_ok _ _ _ _ _ Hsearch). cbn [fst snd].
  apply write_search_results_container.
Qed.

(** X11. The write comes last: if the pipeline raises, whichever stage
    failed, the store is as it was and no output has been written. *)
Theorem execute_failure_writes_nothing (num_gpus : Z) (args : Args.t)
    (fs fs' : filesystem) (e : exn) :
  execute_faiss_index_search num_gpus args fs = (Raise e, fs') -> fs' = fs.
Proof.
  rewrite execute_run. destruct (stages num_gpus args fs) as [found | e'].
  - rewrite write_search_results_container. discriminate.
  - intros [= _ <-]. reflexivity.
Qed.

(** X12. Whatever the outcome, the pipeline changes no path of the store
    but the output path. *)
Theorem execute_other_paths (num_gpus : Z) (args : Args.t) (fs : filesystem)
    (other : string) :
  other <> Args.output args ->
  (execute_faiss_index_search num_gpus args fs).2 !! other = fs !! other.
Proof.
  intros Hne. rewrite execute_run.
  destruct (stages num_gpus args fs) as [found | e]; [| reflexivity].
  now apply write_search_results_frame.
Qed.

(** X13. The index is read before the input is looked at: when the index
    cannot be read, that exception is the one raised, whether or not the
    input file exists; when the index is read and the input path does not
    exist, the loader's file-not-found exception is raised. *)
Theorem execute_stage_order (num_gpus : Z) (args : Args.t) (fs : filesystem) :
  (forall e : exn,
     read_faiss_index num_gpus fs (Args.index_file args) = Raise e ->
     execute_faiss_index_search num_gpus args fs = (Raise e, fs)) /\
  (forall index : Index,
     read_faiss_index num_gpus fs (Args.index_file args) = Ok index ->
     path_exists fs (Args.input_embedded_spectra args) = false ->
     execute_faiss_index_search num_gpus args fs
     = (Raise (PyException
                 (file_not_found_message (Args.input_embedded_spectra args))),
        fs)).
Proof.
  split.
  - intros e Hread. rewrite execute_run. unfold stages, mbind, result_bind.
    now rewrite Hread.
  - intros index Hread Hmiss. rewrite execute_run.
    unfold stages, mbind, result_bind.
    rewrite Hread. cbv beta iota. now rewrite (load_missing _ _ Hmiss).
Qed.

End Pipeline.

(** ** Further worked examples *)

Section ExamplesMore.

Abbreviation toy_searchable :=
  (FlatIndex.searchable example_no_result_distance example_no_result_id).

(** Witness of X2: a partitioned index of dimension 4 on either backend. *)
Lemma make_faiss_index_backends_agree_witness :
  1 <> 0 /\
  match make_faiss_index {| tmp := None; spectra_vectors := [] |} 1 4 "ivfflat",
        make_faiss_index {| tmp := None; spectra_vectors := [] |} 0 4 "ivfflat" with
  | Ok g, Ok c =>
      kind_of g = kind_of c /\ dimension_of g = dimension_of c /\
      nlist_of g = nlist_of c /\
      is_gpu_index g = true /\ is_gpu_index c = false
  | Raise e, Raise e' => e = e'
  | _, _ => False
  end.
Proof.
  assert (1 <> 0) as Hgpu by lia. split; [exact Hgpu |].
  exact (make_faiss_index_backends_agree
           {| tmp := None; spectra_vectors := [] |} 1 0 4 "ivfflat" Hgpu eq_refl).
Defined.

(** Witness of X3: a file called [vectors], with no extension. *)
Lemma loader_path_without_dot_witness :
  no_dot "vectors" = true /\
  path_exists (<["vectors" := RawFile "raw"]> ∅) "vectors" = true /\
  is_ascii "vectors" = true /\
  @load_embedded_spectra_vector example_numpy (<["vectors" := RawFile "raw"]> ∅)
    "vectors"
  = Raise (ValueError "read_array_file: Unknown extension s for file vectors").
Proof.
  assert (no_dot "vectors" = true) as Hdot by reflexivity.
  assert (path_exists (<["vectors" := RawFile "raw"]> ∅) "vectors" = true)
    as Hex by reflexivity.
  assert (is_ascii "vectors" = true) as Hascii by reflexivity.
  split; [exact Hdot |]. split; [exact Hex |]. split; [exact Hascii |].
  exact (proj2 (proj2 (@loader_path_without_dot example_numpy
                         (<["vectors" := RawFile "raw"]> ∅) "vectors" Hdot Hex)
                  Hascii)).
Defined.

(** Writing over an earlier result. *)
Example write_twice :
  (write_search_results [[Np.of_Z 1]] [[7]] "out.h5"
     (write_search_results [[Np.of_Z 5]; [Np.of_Z 0]] [[0]; [3]] "out.h5"
        example_fs).2).2 !! "out.h5"
  = Some (H5File (result_container [[Np.of_Z 1]] [[7]])).
Proof. rewrite !write_search_results_container. apply lookup_insert_eq. Qed.

(** Witness of X5: the notes stay as they are. *)
Lemma write_search_results_other_paths_witness :
  "notes.doc" <> "out.h5" /\
  (write_search_results [[Np.of_Z 1]] [[7]] "out.h5" example_fs).2 !! "notes.doc"
  = example_fs !! "notes.doc".
Proof.
  assert ("notes.doc" <> "out.h5") as Hne by discriminate.
  split; [exact Hne |].
  exact (write_search_results_other_paths [[Np.of_Z 1]] [[7]] "out.h5" "notes.doc"
           example_fs Hne).
Defined.

(** Witness of X6: a result written to [results.H5] and loaded again. *)
Lemma written_results_do_not_load_witness :
  ends_with_ci "results.H5" ".h5" /\
  @load_embedded_spectra_vector example_numpy
    (write_search_results [[Np.of_Z 1]] [[7]] "results.H5" example_fs).2
    "results.H5"
  = Raise (OtherError "KeyError" "Unable to open object (object does not exist)").
Proof.
  assert (ends_with_ci "results.H5" ".h5") as Hext
    by (exists "results", ".H5"; split; reflexivity).
  split; [exact Hext |].
  exact (@written_results_do_not_load example_numpy [[Np.of_Z 1]] [[7]]
           "results.H5" example_fs Hext).
Defined.

(** Witness of X7, with the toy faiss on a machine with one GPU. *)
Lemma read_after_write_witness :
  @faiss_read_index _ example_faiss
    (@faiss_write_index _ example_faiss example_index "index.faiss" ∅).2 "index.faiss"
    = Ok example_index /\
  @read_faiss_index _ example_faiss 1
    (@write_faiss_index _ example_faiss 1 example_index "index.faiss" ∅).2
    "index.faiss"
  = Ok example_index.
Proof.
  assert (@faiss_read_index _ example_faiss
            (@faiss_write_index _ example_faiss example_index "index.faiss" ∅).2
            "index.faiss" = Ok example_index) as Hlib by reflexivity.
  split; [exact Hlib |].
  exact (@read_after_write _ example_faiss 1 example_index "index.faiss" ∅ Hlib).
Defined.

(** Building an index over the example corpus with the toy faiss: the flat
    index of dimension 2 is filled and written. *)
Example init_example :
  @Faiss_write_index__init__ _ example_faiss example_build 0
    (Array2d example_corpus32 2) "index.faiss" ∅
  = (Ok {| tmp := None; spectra_vectors := example_corpus32 |},
     <["index.faiss" := RawFile "faiss index"]> ∅).
Proof. vm_compute. reflexivity. Qed.

(** An array without rows keeps its five columns: the empty index built
    over it has dimension 5. *)
Example init_empty_corpus :
  exists index0 : faiss_index,
    make_faiss_index {| tmp := None; spectra_vectors := [] |} 0
      (np_shape1 (Array2d [] 5)) "flat" = Ok index0 /\
    dimension_of index0 = 5.
Proof. eexists. split; reflexivity. Qed.

(** Witness of X9: an argument without rows and one with the corpus, both
    with two columns. *)
Lemma create_index_argument_witness :
  array_shape1 (Array2d [] 2) = array_shape1 (Array2d example_corpus32 2) /\
  @create_index _ example_faiss example_build
    {| tmp := None; spectra_vectors := example_corpus32 |} 0
    (Array2d [] 2) "index.faiss"
  = @create_index _ example_faiss example_build
      {| tmp := None; spectra_vectors := example_corpus32 |} 0
      (Array2d example_corpus32 2) "index.faiss".
Proof.
  assert (array_shape1 (Array2d [] 2) = array_shape1 (Array2d example_corpus32 2))
    as Hshape by reflexivity.
  split; [exact Hshape |].
  exact (@create_index_argument _ example_faiss example_build
           {| tmp := None; spectra_vectors := example_corpus32 |} 0
           (Array2d [] 2) (Array2d example_corpus32 2) "index.faiss" Hshape).
Defined.

(** Witness of X10: the two queries of the example store against the
    example corpus, two neighbours each. *)
Lemma execute_writes_the_search_result_witness :
  @execute_faiss_index_search _ example_faiss toy_searchable example_numpy
    example_arrays 0 pipeline_args pipeline_fs
  = (Ok tt,
     <["results.h5" :=
         H5File (result_container
                   (Np.pow_half_array
                      [[Np.of_Z 0; Np.of_Z 1]; [Np.of_Z 5; Np.of_Z 18]])
                   [[0; 1]; [3; 2]])]> pipeline_fs).
Proof.
  apply (@execute_writes_the_search_result _ example_faiss toy_searchable
           example_numpy example_arrays 0 pipeline_args pipeline_fs
           example_index (FloatMatrix [example_query32; single_vector])
           (FloatMatrix [example_query32; single_vector])
           [example_query32; single_vector]);
    vm_compute; reflexivity.
Defined.

(** Witness of X11: no index file in the store. *)
Lemma execute_failure_writes_nothing_witness :
  @execute_faiss_index_search _ example_faiss toy_searchable example_numpy
    example_arrays 0 pipeline_args ∅
  = (Raise (OtherError "RuntimeError" "could not open"), ∅) /\
  (∅ : filesystem) = ∅.
Proof.
  assert (@execute_faiss_index_search _ example_faiss toy_searchable example_numpy
            example_arrays 0 pipeline_args ∅
          = (Raise (OtherError "RuntimeError" "could not open"), ∅)) as Hraise
    by reflexivity.
  split; [exact Hraise |].
  exact (@execute_failure_writes_nothing _ example_faiss toy_searchable
           example_numpy example_arrays 0 pipeline_args ∅ ∅ _ Hraise).
Defined.

(** Witness of X12: the query file is still there after the run. *)
Lemma execute_other_paths_witness :
  "queries.h5" <> Args.output pipeline_args /\
  (@execute_faiss_index_search _ example_faiss toy_searchable example_numpy
     example_arrays 0 pipeline_args pipeline_fs).2 !! "queries.h5"
  = pipeline_fs !! "queries.h5".
Proof.
  assert ("queries.h5" <> Args.output pipeline_args) as Hne by discriminate.
  split; [exact Hne |].
  exact (@execute_other_paths _ example_faiss toy_searchable example_numpy
           example_arrays 0 pipeline_args pipeline_fs "queries.h5" Hne).
Defined.

End ExamplesMore.
